(** * Attestation verification engine of kritis (pkg/kritis/cryptolib/verifier.go)

    A shallow embedding of [verifier.go] and the properties of its
    specification.  Go values are modelled as follows:
    - [string] is a Rocq [string], [[]byte] a [list byte] (a nil slice and an
      empty one are not told apart: the code never compares a slice with nil);
    - [error] is [option errorValue], the nil error being [None];
    - [map[string]PublicKey] is stdpp's [gmap string PublicKey];
    - an interface-typed field of a struct is an [option]: [None] is the nil
      interface, and calling a method through it panics;
    - the pointer receiver [v *verifier] is threaded as explicit state, and
      every call that leaves the function under study (the backends behind
      the embedded interfaces, the extractor, the logger) is recorded in a
      trace of events;
    - [VerifyAttestation] is the function on a receiver and an attestation
      that are not nil, and [VerifyAttestation_ptr] the call through the two
      pointers;
    - the implementations behind the interfaces are functions of the bytes
      they are handed; the module [Mutable] models the function a second
      time, with implementations that keep state and write to memory. *)

From Stdlib Require Import Strings.Byte.
From stdpp Require Import base option strings list gmap.

(** ** Values *)

(** Go's [[]byte]. *)
Abbreviation bytes := (list byte).

(** The two ways the file builds an error: [errors.New(text)] and
    [fmt.Errorf(format, args...)].  The format is kept with its arguments
    instead of being rendered: the only verb used is [%q]. *)
Inductive errorValue : Type :=
| errors_New (text : string)
| fmt_Errorf (format : string) (args : list string).

(** Go's [error]: [None] is [nil]. *)
Definition error : Type := option errorValue.

Global Instance errorValue_eq_dec : EqDecision errorValue.
Proof. solve_decision. Defined.

Global Instance byte_eq_dec : EqDecision byte := Byte.byte_eq_dec.

(** [KeyType] and its constants [Pkix], [Pgp] and [Jwt] are declared in
    another file of package cryptolib.  They are taken as parameters: a type
    whose values can be compared (the switch of [VerifyAttestation] compares
    them) and three constants, pairwise different, as the cases of one Go
    switch over constants have to be. *)
Class KeyTypes : Type := {
  KeyType : Type;
  KeyType_eq_dec :: EqDecision KeyType;
  Pkix : KeyType;
  Pgp : KeyType;
  Jwt : KeyType;
  KeyType_cases_distinct : NoDup [Pkix; Pgp; Jwt]
}.

(** A sample instance, used to evaluate the definitions on concrete inputs:
    integer constants, with every other integer an unrecognized key type. *)
Global Instance intKeyTypes : KeyTypes := {|
  KeyType := Z; Pkix := 1%Z; Pgp := 2%Z; Jwt := 3%Z;
  KeyType_cases_distinct := bool_decide_unpack (NoDup [1%Z; 2%Z; 3%Z]) I
|}.

(** [authenticatedAttestation]: data extracted from an Attestation only after
    its signature has been verified. *)
Record authenticatedAttestation : Type := {
  authenticatedAttestation_ImageDigest : string
}.

(** What leaves the functions under study, in program order. *)
Inductive event : Type :=
| glog_Warningf (format : string) (args : list string)
| call_verifyPkix (signature payload publicKey : bytes)
| call_verifyPgp (signature publicKey : bytes)
| call_verifyJwt (signature publicKey : bytes)
| call_formAuthenticatedAttestation (payload : bytes)
| call_checkAuthenticatedAttestation
    (actual : authenticatedAttestation) (imageDigest : string).

(** How a Go call ends: it returns, or it panics (here: a method called
    through a nil interface, a field read through a nil pointer). *)
Inductive outcome (A : Type) : Type :=
| Returned (a : A)
| Panicked.
Arguments Returned {A} a.
Arguments Panicked {A}.

(** ** Interfaces *)

Record pkixVerifier : Type := {
  verifyPkix : bytes → bytes → bytes → error
}.

Record pgpVerifier : Type := {
  verifyPgp : bytes → bytes → bytes * error
}.

Record jwtVerifier : Type := {
  verifyJwt : bytes → bytes → bytes * error
}.

Record authenticatedAuthChecker : Type := {
  checkAuthenticatedAttestation : authenticatedAttestation → string → error
}.

(** ** Implementations of the interfaces *)

Definition pkixVerifierImpl : pkixVerifier := {|
  verifyPkix _ _ _ := Some (errors_New "verify pkix not implemented")
|}.

Definition jwtVerifierImpl : jwtVerifier := {|
  verifyJwt _ _ := ([], Some (errors_New "verify jwt not implemented"))
|}.

Definition formAuthenticatedAttestation (payload : bytes)
  : authenticatedAttestation :=
  {| authenticatedAttestation_ImageDigest := "" |}.

Definition attAuthChecker : authenticatedAuthChecker := {|
  checkAuthenticatedAttestation actual imageDigest :=
    if negb (String.eqb (authenticatedAttestation_ImageDigest actual) imageDigest)
    then Some (errors_New "invalid payload for authenticated attestation")
    else None
|}.

Section Verifier.
Context {KT : KeyTypes}.

(** [pgpVerifierImpl] is declared in another file of the package; it is a
    parameter of [NewVerifier]. *)
Context (pgpVerifierImpl : pgpVerifier).

(** [PublicKey] with its constructor function [NewPublicKey]. *)
Record PublicKey : Type := NewPublicKey {
  PublicKey_KeyType : KeyType;
  PublicKey_KeyData : bytes;
  PublicKey_ID : string
}.

(** [Attestation] is declared in another file of the package; these are the
    fields [VerifyAttestation] reads. *)
Record Attestation : Type := {
  Attestation_PublicKeyID : string;
  Attestation_Signature : bytes;
  Attestation_SerializedPayload : bytes
}.

Record verifier : Type := {
  verifier_ImageDigest : string;
  verifier_PublicKeys : gmap string PublicKey;
  verifier_pkixVerifier : option pkixVerifier;
  verifier_pgpVerifier : option pgpVerifier;
  verifier_jwtVerifier : option jwtVerifier;
  verifier_authenticatedAuthChecker : option authenticatedAuthChecker
}.

(** ** Key registry *)

Definition duplicateKeyWarning (id : string) : event :=
  glog_Warningf
    "Key with ID %q already exists in publicKeySet. Overwriting previous key."
    [id].

(** One iteration of the loop of [indexPublicKeysByID] (lines 105-110): the
    warning when the ID is already a key of the map, then the write. *)
Definition indexStep (acc : gmap string PublicKey * list event)
    (publicKey : PublicKey) : gmap string PublicKey * list event :=
  let '(keyMap, log) := acc in
  let log' :=
    match keyMap !! PublicKey_ID publicKey with
    | Some _ => log ++ [duplicateKeyWarning (PublicKey_ID publicKey)]
    | None => log
    end in
  (<[PublicKey_ID publicKey := publicKey]> keyMap, log').

Definition indexPublicKeysByID (publicKeyset : list PublicKey)
  : gmap string PublicKey * list event :=
  foldl indexStep (∅, []) publicKeyset.

(** The keys of [keys] whose ID is [id], in input order. *)
Definition keysWithID (id : string) (keys : list PublicKey)
  : list PublicKey :=
  filter (λ k, PublicKey_ID k = id) keys.

(** [NewVerifier] (lines 91-101): the verifier, the error, and what building
    the registry logged. *)
Definition NewVerifier (imageDigest : string) (publicKeySet : list PublicKey)
  : verifier * error * list event :=
  let '(keyMap, log) := indexPublicKeysByID publicKeySet in
  ({| verifier_ImageDigest := imageDigest;
      verifier_PublicKeys := keyMap;
      verifier_pkixVerifier := Some pkixVerifierImpl;
      verifier_pgpVerifier := Some pgpVerifierImpl;
      verifier_jwtVerifier := Some jwtVerifierImpl;
      verifier_authenticatedAuthChecker := Some attAuthChecker |},
   None, log).

(** ** The monad of a method of [*verifier]

    A computation reads and may write the struct behind the receiver,
    appends to the trace, and returns or panics. *)
Definition M (A : Type) : Type := verifier → outcome A * verifier * list event.

Global Instance M_ret : MRet M := λ A a v, (Returned a, v, []).

Global Instance M_bind : MBind M := λ A B f m v,
  match m v with
  | (Returned a, v', t) =>
      let '(r, v'', t') := f a v' in (r, v'', t ++ t')
  | (Panicked, v', t) => (Panicked, v', t)
  end.

(** Reads the struct behind the receiver. *)
Definition receiver : M verifier := λ v, (Returned v, v, []).

(** Appends an event to the trace. *)
Definition emit (e : event) : M unit := λ v, (Returned (), v, [e]).

(** A method call through an embedded interface: a panic when the
    interface is nil, otherwise the call is recorded and made. *)
Definition invoke {I R : Type} (field : verifier → option I)
    (e : event) (method : I → R) : M R :=
  v ← receiver;
  match field v with
  | None => λ v', (Panicked, v', [])
  | Some i => _ ← emit e; mret (method i)
  end.

(** ** The verification engine *)

(** [VerifyAttestation] (lines 115-144).  The local [payload] starts as an
    empty slice, which no path reads: every case of the switch that goes on
    assigns it. *)
Definition VerifyAttestation (att : Attestation) : M error :=
  v ← receiver;
  match verifier_PublicKeys v !! Attestation_PublicKeyID att with
  | None =>
      mret (Some (fmt_Errorf "no public key with ID %q found"
                    [Attestation_PublicKeyID att]))
  | Some publicKey =>
      (* the switch: [None] is the return of its default case, [Some] the
         values of [payload] and [err] after it *)
      selected ←
        (if decide (PublicKey_KeyType publicKey = Pkix) then
           err ← invoke verifier_pkixVerifier
                   (call_verifyPkix (Attestation_Signature att)
                      (Attestation_SerializedPayload att)
                      (PublicKey_KeyData publicKey))
                   (λ i, verifyPkix i (Attestation_Signature att)
                           (Attestation_SerializedPayload att)
                           (PublicKey_KeyData publicKey));
           mret (Some (Attestation_SerializedPayload att, err))
         else if decide (PublicKey_KeyType publicKey = Pgp) then
           r ← invoke verifier_pgpVerifier
                 (call_verifyPgp (Attestation_Signature att)
                    (PublicKey_KeyData publicKey))
                 (λ i, verifyPgp i (Attestation_Signature att)
                         (PublicKey_KeyData publicKey));
           mret (Some r)
         else if decide (PublicKey_KeyType publicKey = Jwt) then
           r ← invoke verifier_jwtVerifier
                 (call_verifyJwt (Attestation_Signature att)
                    (PublicKey_KeyData publicKey))
                 (λ i, verifyJwt i (Attestation_Signature att)
                         (PublicKey_KeyData publicKey));
           mret (Some r)
         else mret None);
      match selected with
      | None =>
          mret (Some (errors_New "signature uses an unsupported key mode"))
      | Some (_, Some err) => mret (Some err)
      | Some (payload, None) =>
          _ ← emit (call_formAuthenticatedAttestation payload);
          let actual := formAuthenticatedAttestation payload in
          v ← receiver;
          invoke verifier_authenticatedAuthChecker
            (call_checkAuthenticatedAttestation actual (verifier_ImageDigest v))
            (λ c, checkAuthenticatedAttestation c actual (verifier_ImageDigest v))
      end
  end.

(** The statements of [VerifyAttestation] after its switch, once the
    selected verifier has returned [payload] and a nil error: extraction,
    then the trust check. *)
Definition afterVerification (payload : bytes) : M error :=
  _ ← emit (call_formAuthenticatedAttestation payload);
  let actual := formAuthenticatedAttestation payload in
  v ← receiver;
  invoke verifier_authenticatedAuthChecker
    (call_checkAuthenticatedAttestation actual (verifier_ImageDigest v))
    (λ c, checkAuthenticatedAttestation c actual (verifier_ImageDigest v)).

(** The algorithm verifier that the switch of [VerifyAttestation] selects
    for [publicKey] is present and returns a nil error. *)
Definition selectedVerifierSucceeds (v : verifier) (att : Attestation)
    (publicKey : PublicKey) : Prop :=
  (PublicKey_KeyType publicKey = Pkix ∧
   ∃ i, verifier_pkixVerifier v = Some i ∧
        verifyPkix i (Attestation_Signature att)
          (Attestation_SerializedPayload att) (PublicKey_KeyData publicKey)
          = None) ∨
  (PublicKey_KeyType publicKey = Pgp ∧
   ∃ i payload, verifier_pgpVerifier v = Some i ∧
        verifyPgp i (Attestation_Signature att) (PublicKey_KeyData publicKey)
          = (payload, None)) ∨
  (PublicKey_KeyType publicKey = Jwt ∧
   ∃ i payload, verifier_jwtVerifier v = Some i ∧
        verifyJwt i (Attestation_Signature att) (PublicKey_KeyData publicKey)
          = (payload, None)).

(** The call that the switch of [VerifyAttestation] makes for [publicKey],
    as the trace records it ([Jwt] standing for the last case). *)
Definition selectedCall (att : Attestation) (publicKey : PublicKey) : event :=
  if decide (PublicKey_KeyType publicKey = Pkix) then
    call_verifyPkix (Attestation_Signature att)
      (Attestation_SerializedPayload att) (PublicKey_KeyData publicKey)
  else if decide (PublicKey_KeyType publicKey = Pgp) then
    call_verifyPgp (Attestation_Signature att) (PublicKey_KeyData publicKey)
  else
    call_verifyJwt (Attestation_Signature att) (PublicKey_KeyData publicKey).

(** The algorithm verifier selected for [publicKey] is present, and its call
    leaves [payload] and [err] in the locals of [VerifyAttestation]. *)
Definition selectedVerifierReturns (v : verifier) (att : Attestation)
    (publicKey : PublicKey) (payload : bytes) (err : error) : Prop :=
  (PublicKey_KeyType publicKey = Pkix ∧
   payload = Attestation_SerializedPayload att ∧
   ∃ i, verifier_pkixVerifier v = Some i ∧
        verifyPkix i (Attestation_Signature att)
          (Attestation_SerializedPayload att) (PublicKey_KeyData publicKey)
          = err) ∨
  (PublicKey_KeyType publicKey = Pgp ∧
   ∃ i, verifier_pgpVerifier v = Some i ∧
        verifyPgp i (Attestation_Signature att) (PublicKey_KeyData publicKey)
          = (payload, err)) ∨
  (PublicKey_KeyType publicKey = Jwt ∧
   ∃ i, verifier_jwtVerifier v = Some i ∧
        verifyJwt i (Attestation_Signature att) (PublicKey_KeyData publicKey)
          = (payload, err)).

(** The interface behind which the algorithm verifier selected for
    [publicKey] should be is nil. *)
Definition selectedVerifierMissing (v : verifier) (publicKey : PublicKey)
  : Prop :=
  (PublicKey_KeyType publicKey = Pkix ∧ verifier_pkixVerifier v = None) ∨
  (PublicKey_KeyType publicKey = Pgp ∧ verifier_pgpVerifier v = None) ∨
  (PublicKey_KeyType publicKey = Jwt ∧ verifier_jwtVerifier v = None).

(** The key type of [publicKey] is one of the three cases of the switch. *)
Definition recognizedKeyType (publicKey : PublicKey) : Prop :=
  PublicKey_KeyType publicKey = Pkix ∨ PublicKey_KeyType publicKey = Pgp ∨
  PublicKey_KeyType publicKey = Jwt.

(** An event of the trace is a call of the extractor or of the trust
    checker. *)
Definition afterVerificationEvent (e : event) : Prop :=
  match e with
  | call_formAuthenticatedAttestation _
  | call_checkAuthenticatedAttestation _ _ => True
  | _ => False
  end.

(** [VerifyAttestation] as Go calls it, through its pointer receiver and
    with a pointer to the attestation.  Line 118 reads [v.PublicKeys] and
    [att.PublicKeyID] before anything else, so a nil receiver or a nil
    attestation panics there; otherwise the run is that of the function on
    what the pointers point to. *)
Definition VerifyAttestation_ptr (v : option verifier)
    (att : option Attestation) : outcome error * list event :=
  match v, att with
  | Some v0, Some att0 =>
      ((VerifyAttestation att0 v0).1.1, (VerifyAttestation att0 v0).2)
  | _, _ => (Panicked, [])
  end.

End Verifier.

(** ** Sample inputs, on the instance [intKeyTypes] *)

(** Backends as a test of the package would supply them: a PKIX verifier
    that accepts every signature, a JWT verifier that rejects every
    signature, and a PGP verifier that accepts every signature and recovers
    it as the payload. *)
Definition acceptingPkixVerifier : pkixVerifier := {|
  verifyPkix _ _ _ := None
|}.

Definition rejectingJwtVerifier : jwtVerifier := {|
  verifyJwt _ _ := ([], Some (errors_New "signature invalid"))
|}.

Definition samplePgpVerifier : pgpVerifier := {|
  verifyPgp signature _ := (signature, None)
|}.

Definition sampleKey (keyType : @KeyType intKeyTypes) : PublicKey :=
  NewPublicKey keyType [x01; x02] "k1".

Definition sampleAttestation (id : string) : Attestation := {|
  Attestation_PublicKeyID := id;
  Attestation_Signature := [x05; x06];
  Attestation_SerializedPayload := String.list_byte_of_string "sha256:abc"
|}.

(** A verifier over [publicKeySet] as [NewVerifier] builds it, but for its
    PKIX and JWT backends. *)
Definition sampleVerifier (imageDigest : string) (publicKeySet : list PublicKey)
    (pkix : option pkixVerifier) (jwt : option jwtVerifier) : verifier := {|
  verifier_ImageDigest := imageDigest;
  verifier_PublicKeys := (indexPublicKeysByID publicKeySet).1;
  verifier_pkixVerifier := pkix;
  verifier_pgpVerifier := Some samplePgpVerifier;
  verifier_jwtVerifier := jwt;
  verifier_authenticatedAuthChecker := Some attAuthChecker
|}.

(** The verifier of scenario A: one PKIX key "k1", expected digest
    "sha256:abc", and a PKIX backend that accepts the signature. *)
Definition scenarioA_verifier : verifier :=
  sampleVerifier "sha256:abc" [sampleKey Pkix]
    (Some acceptingPkixVerifier) (Some jwtVerifierImpl).

(** A key set in which "k1" comes twice, around another key. *)
Definition duplicateKeys : list PublicKey :=
  [sampleKey Pkix; NewPublicKey Jwt [x03] "k2"; NewPublicKey Pgp [x04] "k1"].

(** A verifier whose only key has a type outside the three families, and
    none of whose backends is present. *)
Definition unrecognizedKeyVerifier : verifier := {|
  verifier_ImageDigest := "sha256:abc";
  verifier_PublicKeys := (indexPublicKeysByID [sampleKey 0%Z]).1;
  verifier_pkixVerifier := None;
  verifier_pgpVerifier := None;
  verifier_jwtVerifier := None;
  verifier_authenticatedAuthChecker := None
|}.


(** A verifier whose expected digest is empty, over one PGP key "k1" and a
    PGP backend that accepts the signature. *)
Definition emptyDigestVerifier : verifier :=
  sampleVerifier "" [sampleKey Pgp] None None.

(** A key set whose IDs are pairwise different. *)
Definition uniqueKeys : list PublicKey :=
  [sampleKey Pkix; NewPublicKey Jwt [x03] "k2"].

(** A verifier over one JWT key "k1" whose JWT backend rejects the
    signature. *)
Definition rejectingJwtKeyVerifier : verifier :=
  sampleVerifier "sha256:abc" [sampleKey Jwt] None (Some rejectingJwtVerifier).




(** ** Implementations that keep state and write to memory

    The model above takes the implementation behind an interface as a
    function of the bytes it is handed.  A Go implementation can do more: it
    can keep state between calls, and it can write to what it reaches, among
    which the slices it is handed; these share their backing arrays with the
    caller's values, KeyData with the entry of the PublicKeys map, Signature
    and SerializedPayload with the attestation.  The module [Mutable] models
    [VerifyAttestation] once more with such implementations: a call through
    an interface takes the memory and returns it, changed or not.  Which
    implementation sits behind each interface is taken not to change during
    a call. *)
Module Mutable.
Section Mutable.
Context {KT : KeyTypes}.

(** The private state of the implementations behind the interfaces. *)
Context {P : Type}.

(** A Go slice: the address of its backing array and its length. *)
Record slice : Type := {
  slice_array : positive;
  slice_len : nat
}.

Record PublicKey : Type := NewPublicKey {
  PublicKey_KeyType : KeyType;
  PublicKey_KeyData : slice;
  PublicKey_ID : string
}.

Record Attestation : Type := {
  Attestation_PublicKeyID : string;
  Attestation_Signature : slice;
  Attestation_SerializedPayload : slice
}.

(** What a callee can reach and change: the fields of data of the struct
    behind the receiver, the backing arrays, and its own state. *)
Record memory : Type := {
  memory_ImageDigest : string;
  memory_PublicKeys : gmap string PublicKey;
  memory_arrays : gmap positive bytes;
  memory_private : P
}.

(** The bytes a slice shows in a memory. *)
Definition bytesOf (m : memory) (s : slice) : bytes :=
  take (slice_len s) (default [] (memory_arrays m !! slice_array s)).

Record pkixVerifier : Type := {
  verifyPkix : slice → slice → slice → memory → error * memory
}.

(** The slice that [verifyPgp] and [verifyJwt] return is given by the bytes
    it shows when the call returns: [VerifyAttestation] hands it to the
    extractor and does nothing else with it. *)
Record pgpVerifier : Type := {
  verifyPgp : slice → slice → memory → (bytes * error) * memory
}.

Record jwtVerifier : Type := {
  verifyJwt : slice → slice → memory → (bytes * error) * memory
}.

Record authenticatedAuthChecker : Type := {
  checkAuthenticatedAttestation :
    authenticatedAttestation → string → memory → error * memory
}.

(** The interface-typed fields of the struct [verifier]; its fields of data
    are in the [memory]. *)
Record verifier : Type := {
  verifier_pkixVerifier : option pkixVerifier;
  verifier_pgpVerifier : option pgpVerifier;
  verifier_jwtVerifier : option jwtVerifier;
  verifier_authenticatedAuthChecker : option authenticatedAuthChecker
}.

Definition pkixVerifierImpl : pkixVerifier := {|
  verifyPkix _ _ _ m := (Some (errors_New "verify pkix not implemented"), m)
|}.

Definition jwtVerifierImpl : jwtVerifier := {|
  verifyJwt _ _ m := (([], Some (errors_New "verify jwt not implemented")), m)
|}.

Definition attAuthChecker : authenticatedAuthChecker := {|
  checkAuthenticatedAttestation actual imageDigest m :=
    (if negb (String.eqb (authenticatedAttestation_ImageDigest actual)
                imageDigest)
     then Some (errors_New "invalid payload for authenticated attestation")
     else None, m)
|}.

(** Lines 136-143 of [VerifyAttestation]: what follows the switch, with the
    values of [payload] and [err] that the switch has left. *)
Definition afterSwitch (v : verifier) (payload : bytes) (err : error)
    (m : memory) : outcome error * memory :=
  match err with
  | Some e => (Returned (Some e), m)
  | None =>
      let actual := formAuthenticatedAttestation payload in
      match verifier_authenticatedAuthChecker v with
      | None => (Panicked, m)
      | Some c =>
          let '(r, m') :=
            checkAuthenticatedAttestation c actual (memory_ImageDigest m) m in
          (Returned r, m')
      end
  end.

(** [VerifyAttestation] (lines 115-144), for a receiver and an attestation
    that are not nil. *)
Definition VerifyAttestation (v : verifier) (att : Attestation) (m : memory)
  : outcome error * memory :=
  match memory_PublicKeys m !! Attestation_PublicKeyID att with
  | None =>
      (Returned (Some (fmt_Errorf "no public key with ID %q found"
                         [Attestation_PublicKeyID att])), m)
  | Some publicKey =>
      if decide (PublicKey_KeyType publicKey = Pkix) then
        match verifier_pkixVerifier v with
        | None => (Panicked, m)
        | Some i =>
            let '(err, m') :=
              verifyPkix i (Attestation_Signature att)
                (Attestation_SerializedPayload att)
                (PublicKey_KeyData publicKey) m in
            afterSwitch v (bytesOf m' (Attestation_SerializedPayload att))
              err m'
        end
      else if decide (PublicKey_KeyType publicKey = Pgp) then
        match verifier_pgpVerifier v with
        | None => (Panicked, m)
        | Some i =>
            let '((payload, err), m') :=
              verifyPgp i (Attestation_Signature att)
                (PublicKey_KeyData publicKey) m in
            afterSwitch v payload err m'
        end
      else if decide (PublicKey_KeyType publicKey = Jwt) then
        match verifier_jwtVerifier v with
        | None => (Panicked, m)
        | Some i =>
            let '((payload, err), m') :=
              verifyJwt i (Attestation_Signature att)
                (PublicKey_KeyData publicKey) m in
            afterSwitch v payload err m'
        end
      else
        (Returned (Some (errors_New "signature uses an unsupported key mode")),
         m)
  end.

(** No implementation behind an interface of [v] changes the memory: none
    keeps state, none writes to a slice or to the struct. *)
Definition readOnly (v : verifier) : Prop :=
  (∀ i, verifier_pkixVerifier v = Some i →
        ∀ s p k m, (verifyPkix i s p k m).2 = m) ∧
  (∀ i, verifier_pgpVerifier v = Some i →
        ∀ s k m, (verifyPgp i s k m).2 = m) ∧
  (∀ i, verifier_jwtVerifier v = Some i →
        ∀ s k m, (verifyJwt i s k m).2 = m) ∧
  (∀ i, verifier_authenticatedAuthChecker v = Some i →
        ∀ a d m, (checkAuthenticatedAttestation i a d m).2 = m).

End Mutable.

(** *** Sample inputs *)

(** A PGP backend that accepts a signature under the key bytes [x01; x02],
    and wipes the key bytes it was handed once it has used them. *)
Definition wipingPgpVerifier : @pgpVerifier intKeyTypes unit := {|
  verifyPgp signature publicKey m :=
    if decide (bytesOf m publicKey = [x01; x02]) then
      ((bytesOf m signature, None),
       {| memory_ImageDigest := memory_ImageDigest m;
          memory_PublicKeys := memory_PublicKeys m;
          memory_arrays :=
            <[slice_array publicKey := [x00; x00]]> (memory_arrays m);
          memory_private := memory_private m |})
    else (([], Some (errors_New "signature invalid")), m)
|}.

(** The stubs and the checker of the file, and [wipingPgpVerifier] as the
    PGP backend. *)
Definition wipingVerifier : @verifier intKeyTypes unit := {|
  verifier_pkixVerifier := Some pkixVerifierImpl;
  verifier_pgpVerifier := Some wipingPgpVerifier;
  verifier_jwtVerifier := Some jwtVerifierImpl;
  verifier_authenticatedAuthChecker := Some attAuthChecker
|}.

(** The stubs and the checker of the file, and no PGP backend. *)
Definition stubVerifier : @verifier intKeyTypes unit := {|
  verifier_pkixVerifier := Some pkixVerifierImpl;
  verifier_pgpVerifier := None;
  verifier_jwtVerifier := Some jwtVerifierImpl;
  verifier_authenticatedAuthChecker := Some attAuthChecker
|}.

Definition sampleKeyData : slice := {| slice_array := 1; slice_len := 2 |}.
Definition sampleSignature : slice := {| slice_array := 2; slice_len := 2 |}.
Definition samplePayload : slice := {| slice_array := 3; slice_len := 10 |}.

(** A memory with an empty expected digest and one key "k1" of type
    [keyType], whose bytes are [x01; x02]. *)
Definition sampleMemory (keyType : @KeyType intKeyTypes)
  : @memory intKeyTypes unit := {|
  memory_ImageDigest := "";
  memory_PublicKeys := {[ "k1" := NewPublicKey keyType sampleKeyData "k1" ]};
  memory_arrays :=
    {[ 1%positive := [x01; x02]; 2%positive := [x05; x06];
       3%positive := String.list_byte_of_string "sha256:abc" ]};
  memory_private := ()
|}.

Definition sampleAttestation : Attestation := {|
  Attestation_PublicKeyID := "k1";
  Attestation_Signature := sampleSignature;
  Attestation_SerializedPayload := samplePayload
|}.

End Mutable.

(** *** From the first model to [Mutable]

    An implementation of the first model, as one of [Mutable] that reads the
    bytes of the slices it is handed and changes nothing. *)
Section Lift.
Context {KT : KeyTypes} {P : Type}.

Definition liftPkix (i : pkixVerifier) : @Mutable.pkixVerifier KT P := {|
  Mutable.verifyPkix s p k m :=
    (verifyPkix i (Mutable.bytesOf m s) (Mutable.bytesOf m p)
       (Mutable.bytesOf m k), m)
|}.

Definition liftPgp (i : pgpVerifier) : @Mutable.pgpVerifier KT P := {|
  Mutable.verifyPgp s k m :=
    (verifyPgp i (Mutable.bytesOf m s) (Mutable.bytesOf m k), m)
|}.

Definition liftJwt (i : jwtVerifier) : @Mutable.jwtVerifier KT P := {|
  Mutable.verifyJwt s k m :=
    (verifyJwt i (Mutable.bytesOf m s) (Mutable.bytesOf m k), m)
|}.

Definition liftChecker (i : authenticatedAuthChecker)
  : @Mutable.authenticatedAuthChecker KT P := {|
  Mutable.checkAuthenticatedAttestation actual imageDigest m :=
    (checkAuthenticatedAttestation i actual imageDigest, m)
|}.

Definition liftVerifier (v : verifier) : @Mutable.verifier KT P := {|
  Mutable.verifier_pkixVerifier := liftPkix <$> verifier_pkixVerifier v;
  Mutable.verifier_pgpVerifier := liftPgp <$> verifier_pgpVerifier v;
  Mutable.verifier_jwtVerifier := liftJwt <$> verifier_jwtVerifier v;
  Mutable.verifier_authenticatedAuthChecker :=
    liftChecker <$> verifier_authenticatedAuthChecker v
|}.

(** A key and an attestation of [Mutable], with the bytes that their slices
    show in [m]. *)
Definition keyIn (m : @Mutable.memory KT P) (k : @Mutable.PublicKey KT)
  : PublicKey :=
  NewPublicKey (Mutable.PublicKey_KeyType k)
    (Mutable.bytesOf m (Mutable.PublicKey_KeyData k))
    (Mutable.PublicKey_ID k).

Definition attestationIn (m : @Mutable.memory KT P)
    (att : Mutable.Attestation) : Attestation := {|
  Attestation_PublicKeyID := Mutable.Attestation_PublicKeyID att;
  Attestation_Signature :=
    Mutable.bytesOf m (Mutable.Attestation_Signature att);
  Attestation_SerializedPayload :=
    Mutable.bytesOf m (Mutable.Attestation_SerializedPayload att)
|}.

End Lift.

(** The error values of [verifier.go], under the names the specification
    gives to the kinds of failure. *)
Definition UnknownKeyID (id : string) : errorValue :=
  fmt_Errorf "no public key with ID %q found" [id].
Definition UnsupportedKeyMode : errorValue :=
  errors_New "signature uses an unsupported key mode".
Definition NotImplementedPkix : errorValue :=
  errors_New "verify pkix not implemented".
Definition TrustMismatch : errorValue :=
  errors_New "invalid payload for authenticated attestation".

(** Unfolds the monad, so that a run of a method is a term to compute. *)
Ltac run_method :=
  unfold VerifyAttestation, invoke, receiver, emit;
  unfold mbind, mret, M_bind, M_ret; cbn beta iota.

(** Splits the membership of an event in an explicit trace. *)
Ltac trace_cases H :=
  repeat first
    [ apply elem_of_nil in H; destruct H
    | apply elem_of_cons in H as [H|H] ];
  simplify_eq.

(** ** Properties of the key registry *)

Section RegistryProperties.
Context {KT : KeyTypes}.

Implicit Types (publicKey k : PublicKey) (keys : list PublicKey).
Implicit Types (keyMap : gmap string PublicKey) (log : list event).
Implicit Types (id : string).

Lemma indexStep_map keyMap log k :
  (indexStep (keyMap, log) k).1 = <[PublicKey_ID k := k]> keyMap.
Proof. reflexivity. Qed.

Lemma foldl_indexStep_lookup keys : ∀ keyMap log id,
  (foldl indexStep (keyMap, log) keys).1 !! id =
    match last (keysWithID id keys) with
    | Some k => Some k
    | None => keyMap !! id
    end.
Proof.
  induction keys as [|k keys IH]; intros keyMap log id; [done|].
  cbn [foldl]. destruct (indexStep (keyMap, log) k) as [keyMap' log'] eqn:Hstep.
  rewrite IH. apply (f_equal fst) in Hstep. rewrite indexStep_map in Hstep.
  cbn in Hstep. subst keyMap'. unfold keysWithID. rewrite filter_cons.
  destruct (decide (PublicKey_ID k = id)) as [Hid|Hid].
  - rewrite last_cons. destruct (last _); [done|].
    by rewrite Hid, lookup_insert_eq.
  - destruct (last _); [done|]. by rewrite lookup_insert_ne.
Qed.

(** The registry holds, under each ID, the last key of the input with
    that ID, and nothing under an ID that no key has. *)
Lemma indexPublicKeysByID_lookup keys id :
  (indexPublicKeysByID keys).1 !! id = last (keysWithID id keys).
Proof.
  unfold indexPublicKeysByID. rewrite foldl_indexStep_lookup.
  by destruct (last _).
Qed.

Lemma indexPublicKeysByID_lookup_None keys id :
  (∀ k, k ∈ keys → PublicKey_ID k ≠ id) →
  (indexPublicKeysByID keys).1 !! id = None.
Proof.
  intros Hno. rewrite indexPublicKeysByID_lookup.
  destruct (last _) as [k|] eqn:Hlast; [|done].
  apply last_Some_elem_of in Hlast.
  apply list_elem_of_filter in Hlast as [Hid Hin]. by destruct (Hno k).
Qed.

(** The log only grows. *)
Lemma foldl_indexStep_log_mono keys : ∀ keyMap log e,
  e ∈ log → e ∈ (foldl indexStep (keyMap, log) keys).2.
Proof.
  induction keys as [|k keys IH]; intros keyMap log e He; [done|].
  cbn [foldl]. unfold indexStep at 2. apply IH.
  destruct (keyMap !! PublicKey_ID k); [|done]. set_solver.
Qed.

(** A key whose ID is already in the map gives a warning. *)
Lemma foldl_indexStep_warns keys : ∀ keyMap log id,
  is_Some (keyMap !! id) → keysWithID id keys ≠ [] →
  duplicateKeyWarning id ∈ (foldl indexStep (keyMap, log) keys).2.
Proof.
  induction keys as [|k keys IH]; intros keyMap log id Hin Hne; [done|].
  cbn [foldl]. unfold indexStep at 2.
  unfold keysWithID in Hne. rewrite filter_cons in Hne.
  destruct (decide (PublicKey_ID k = id)) as [->|Hid].
  - apply foldl_indexStep_log_mono. destruct Hin as [k' ->]. set_solver.
  - apply IH; [|done]. by rewrite lookup_insert_ne.
Qed.

Lemma foldl_indexStep_warns_twice keys : ∀ keyMap log id,
  2 ≤ length (keysWithID id keys) →
  duplicateKeyWarning id ∈ (foldl indexStep (keyMap, log) keys).2.
Proof.
  induction keys as [|k keys IH]; intros keyMap log id Hlen.
  { cbn in Hlen. lia. }
  cbn [foldl]. unfold indexStep at 2.
  unfold keysWithID in Hlen. rewrite filter_cons in Hlen.
  destruct (decide (PublicKey_ID k = id)) as [<-|Hid].
  - apply foldl_indexStep_warns.
    + rewrite lookup_insert_eq. by eexists.
    + cbn in Hlen. intros Hnil. unfold keysWithID in Hnil.
      rewrite Hnil in Hlen. cbn in Hlen. lia.
  - by apply IH.
Qed.

(** The last element of a non-empty selection splits the input around
    it. *)
Lemma last_keysWithID_split keys id k :
  last (keysWithID id keys) = Some k →
  ∃ before after, keys = before ++ k :: after ∧ PublicKey_ID k = id ∧
    ∀ k', k' ∈ after → PublicKey_ID k' ≠ id.
Proof.
  induction keys as [|k0 keys IH]; intros Hlast; [done|].
  unfold keysWithID in Hlast. rewrite filter_cons in Hlast.
  destruct (last (keysWithID id keys)) as [k1|] eqn:Htail.
  - assert (k1 = k) as ->.
    { unfold keysWithID in Htail. destruct (decide _); [|congruence].
      rewrite last_cons, Htail in Hlast. congruence. }
    destruct (IH eq_refl) as (before & after & -> & Hid & Hafter).
    by exists (k0 :: before), after.
  - apply last_None in Htail. unfold keysWithID in Htail.
    rewrite Htail in Hlast. destruct (decide _) as [Hid|]; [|done].
    cbn in Hlast. injection Hlast as ->.
    exists [], keys. split_and!; [done..|].
    intros k' Hin Hid'. assert (k' ∈ filter (λ k, PublicKey_ID k = id) keys) as Hf
      by (apply list_elem_of_filter; split; [done|done]).
    rewrite Htail in Hf. by apply not_elem_of_nil in Hf.
Qed.

End RegistryProperties.

(** ** Properties of the verification engine *)

Section EngineProperties.
Context {KT : KeyTypes}.

Implicit Types (v : verifier) (att : Attestation) (publicKey : PublicKey).

Lemma KeyType_cases_ne : Pgp ≠ Pkix ∧ Jwt ≠ Pkix ∧ Jwt ≠ Pgp.
Proof.
  pose proof KeyType_cases_distinct as Hd.
  apply NoDup_cons in Hd as [Hpkix Hd]. apply NoDup_cons in Hd as [Hpgp _].
  apply not_elem_of_cons in Hpkix as [H12 H13].
  apply not_elem_of_cons in H13 as [H13 _].
  apply not_elem_of_cons in Hpgp as [H23 _].
  split_and!; congruence.
Qed.

Lemma Pgp_ne_Pkix : Pgp ≠ Pkix.
Proof. apply KeyType_cases_ne. Qed.

Lemma Jwt_ne_Pkix : Jwt ≠ Pkix.
Proof. apply KeyType_cases_ne. Qed.

Lemma Jwt_ne_Pgp : Jwt ≠ Pgp.
Proof. apply KeyType_cases_ne. Qed.

(** The run of [VerifyAttestation] when no key has the attestation's ID. *)
Lemma VerifyAttestation_unknown v att :
  verifier_PublicKeys v !! Attestation_PublicKeyID att = None →
  VerifyAttestation att v =
    (Returned (Some (UnknownKeyID (Attestation_PublicKeyID att))), v, []).
Proof. intros Hlookup. run_method. by rewrite Hlookup. Qed.

Lemma afterVerification_run payload v :
  afterVerification payload v =
    match verifier_authenticatedAuthChecker v with
    | Some c =>
        (Returned (checkAuthenticatedAttestation c
                     (formAuthenticatedAttestation payload)
                     (verifier_ImageDigest v)), v,
         [call_formAuthenticatedAttestation payload;
          call_checkAuthenticatedAttestation
            (formAuthenticatedAttestation payload) (verifier_ImageDigest v)])
    | None => (Panicked, v, [call_formAuthenticatedAttestation payload])
    end.
Proof.
  unfold afterVerification. run_method.
  by destruct (verifier_authenticatedAuthChecker v).
Qed.

(** The run of [VerifyAttestation] through the [Pkix] case. *)
Lemma VerifyAttestation_pkix v att publicKey i :
  verifier_PublicKeys v !! Attestation_PublicKeyID att = Some publicKey →
  PublicKey_KeyType publicKey = Pkix →
  verifier_pkixVerifier v = Some i →
  let e := call_verifyPkix (Attestation_Signature att)
             (Attestation_SerializedPayload att) (PublicKey_KeyData publicKey) in
  VerifyAttestation att v =
    match verifyPkix i (Attestation_Signature att)
            (Attestation_SerializedPayload att) (PublicKey_KeyData publicKey) with
    | Some err => (Returned (Some err), v, [e])
    | None =>
        let '(r, v', t) := afterVerification (Attestation_SerializedPayload att) v in
        (r, v', e :: t)
    end.
Proof.
  intros Hlookup Htype Hfield e. rewrite afterVerification_run.
  run_method. rewrite Hlookup. rewrite decide_True by done.
  rewrite Hfield. cbn. destruct (verifyPkix _ _ _ _); [done|].
  by destruct (verifier_authenticatedAuthChecker v).
Qed.

(** The run of [VerifyAttestation] through the [Pgp] case. *)
Lemma VerifyAttestation_pgp v att publicKey i :
  verifier_PublicKeys v !! Attestation_PublicKeyID att = Some publicKey →
  PublicKey_KeyType publicKey = Pgp →
  verifier_pgpVerifier v = Some i →
  let e := call_verifyPgp (Attestation_Signature att)
             (PublicKey_KeyData publicKey) in
  VerifyAttestation att v =
    match verifyPgp i (Attestation_Signature att) (PublicKey_KeyData publicKey) with
    | (_, Some err) => (Returned (Some err), v, [e])
    | (payload, None) =>
        let '(r, v', t) := afterVerification payload v in (r, v', e :: t)
    end.
Proof.
  intros Hlookup Htype Hfield e.
  run_method. rewrite Hlookup.
  rewrite decide_False by (rewrite Htype; apply Pgp_ne_Pkix).
  rewrite decide_True by done.
  rewrite Hfield. cbn. destruct (verifyPgp _ _ _) as [payload [err|]]; [done|].
  rewrite afterVerification_run.
  by destruct (verifier_authenticatedAuthChecker v).
Qed.

(** The run of [VerifyAttestation] through the [Jwt] case. *)
Lemma VerifyAttestation_jwt v att publicKey i :
  verifier_PublicKeys v !! Attestation_PublicKeyID att = Some publicKey →
  PublicKey_KeyType publicKey = Jwt →
  verifier_jwtVerifier v = Some i →
  let e := call_verifyJwt (Attestation_Signature att)
             (PublicKey_KeyData publicKey) in
  VerifyAttestation att v =
    match verifyJwt i (Attestation_Signature att) (PublicKey_KeyData publicKey) with
    | (_, Some err) => (Returned (Some err), v, [e])
    | (payload, None) =>
        let '(r, v', t) := afterVerification payload v in (r, v', e :: t)
    end.
Proof.
  intros Hlookup Htype Hfield e.
  run_method. rewrite Hlookup.
  rewrite decide_False by (rewrite Htype; apply Jwt_ne_Pkix).
  rewrite decide_False by (rewrite Htype; apply Jwt_ne_Pgp).
  rewrite decide_True by done.
  rewrite Hfield. cbn. destruct (verifyJwt _ _ _) as [payload [err|]]; [done|].
  rewrite afterVerification_run.
  by destruct (verifier_authenticatedAuthChecker v).
Qed.

(** The run of [VerifyAttestation] through the default case. *)
Lemma VerifyAttestation_default v att publicKey :
  verifier_PublicKeys v !! Attestation_PublicKeyID att = Some publicKey →
  PublicKey_KeyType publicKey ≠ Pkix →
  PublicKey_KeyType publicKey ≠ Pgp →
  PublicKey_KeyType publicKey ≠ Jwt →
  VerifyAttestation att v = (Returned (Some UnsupportedKeyMode), v, []).
Proof.
  intros Hlookup H1 H2 H3. run_method. rewrite Hlookup.
  by rewrite !decide_False by done.
Qed.

(** No run of [VerifyAttestation] writes the struct behind its receiver. *)
Lemma VerifyAttestation_receiver v att :
  (VerifyAttestation att v).1.2 = v.
Proof.
  run_method.
  repeat case_match; by simplify_eq.
Qed.

End EngineProperties.

(** ** The claims of the specification *)

Section Claims.
Context {KT : KeyTypes} (pgpVerifierImpl : pgpVerifier).

Implicit Types (v : verifier) (att : Attestation) (publicKey : PublicKey).

(** C2.  When the attestation's PublicKeyID is the ID of no key of the key
    set, verification returns the unknown-key error, and the trace of the
    run is empty: no algorithm verifier, no extraction and no trust check
    took place. *)
Theorem unknown_key_id (K : list PublicKey) v att :
  verifier_PublicKeys v = (indexPublicKeysByID K).1 →
  Attestation_PublicKeyID att ∉ PublicKey_ID <$> K →
  VerifyAttestation att v =
    (Returned (Some (UnknownKeyID (Attestation_PublicKeyID att))), v, []).
Proof.
  intros Hkeys Hnotin. apply VerifyAttestation_unknown. rewrite Hkeys.
  apply indexPublicKeysByID_lookup_None. intros k Hin Hid.
  apply Hnotin, list_elem_of_fmap. by exists k.
Qed.

(** C3.  When two or more keys of the input share an ID, building the
    registry still succeeds ([NewVerifier] returns a nil error), a warning
    is logged, and the registry maps that ID to one key: the last key of
    the input with that ID. *)
Theorem duplicate_key_last_wins (imageDigest : string)
    (keys : list PublicKey) (id : string) :
  2 ≤ length (keysWithID id keys) →
  ∃ k before after,
    keys = before ++ k :: after ∧
    PublicKey_ID k = id ∧
    (id ∉ PublicKey_ID <$> after) ∧
    (indexPublicKeysByID keys).1 !! id = Some k ∧
    duplicateKeyWarning id ∈ (indexPublicKeysByID keys).2 ∧
    (NewVerifier pgpVerifierImpl imageDigest keys).1.2 = None ∧
    (verifier_PublicKeys (NewVerifier pgpVerifierImpl imageDigest keys).1.1)
      !! id = Some k.
Proof.
  intros Hlen.
  destruct (last (keysWithID id keys)) as [k|] eqn:Hlast.
  2: { apply last_None in Hlast. rewrite Hlast in Hlen. cbn in Hlen. lia. }
  destruct (last_keysWithID_split _ _ _ Hlast)
    as (before & after & Hsplit & Hid & Hafter).
  exists k, before, after.
  assert ((indexPublicKeysByID keys).1 !! id = Some k) as Hlookup
    by (by rewrite indexPublicKeysByID_lookup).
  split_and!; try done.
  - intros (k' & Hid' & Hin)%list_elem_of_fmap. by destruct (Hafter k').
  - by apply foldl_indexStep_warns_twice.
  - unfold NewVerifier. by destruct (indexPublicKeysByID keys).
  - unfold NewVerifier. by destruct (indexPublicKeysByID keys).
Qed.

(** C4.  When the attestation's PublicKeyID resolves to a key whose type is
    none of Pkix, Pgp and Jwt, verification returns the unsupported-key-mode
    error, for every signature and payload and for every choice of
    backends (absent ones included); no backend is called. *)
Theorem unsupported_key_mode v att publicKey :
  verifier_PublicKeys v !! Attestation_PublicKeyID att = Some publicKey →
  PublicKey_KeyType publicKey ≠ Pkix →
  PublicKey_KeyType publicKey ≠ Pgp →
  PublicKey_KeyType publicKey ≠ Jwt →
  VerifyAttestation att v = (Returned (Some UnsupportedKeyMode), v, []).
Proof. apply VerifyAttestation_default. Qed.

(** C5.  For an attestation resolved to a Pkix key, when the PKIX verifier
    succeeds, the extractor is called, and the payload it is called with is
    the attestation's SerializedPayload and no other. *)
Theorem pkix_payload_unchanged v att publicKey i :
  verifier_PublicKeys v !! Attestation_PublicKeyID att = Some publicKey →
  PublicKey_KeyType publicKey = Pkix →
  verifier_pkixVerifier v = Some i →
  verifyPkix i (Attestation_Signature att) (Attestation_SerializedPayload att)
    (PublicKey_KeyData publicKey) = None →
  ∃ r t, VerifyAttestation att v = (r, v, t) ∧
    ∀ payload, call_formAuthenticatedAttestation payload ∈ t ↔
               payload = Attestation_SerializedPayload att.
Proof.
  intros Hlookup Htype Hpkix Hverify.
  rewrite (VerifyAttestation_pkix _ _ _ _ Hlookup Htype Hpkix).
  cbn. rewrite Hverify, afterVerification_run.
  destruct (verifier_authenticatedAuthChecker v) as [c|];
    eexists _, _; (split; [reflexivity|]); intros payload;
    rewrite !elem_of_cons, elem_of_nil; (split; [|by intros ->; right; left]).
  all: intros Hin;
    repeat match goal with H : _ ∨ _ |- _ => destruct H as [H|H] end;
    by simplify_eq.
Qed.

(** C6.  The trust checker returns a nil error exactly when the claim's
    ImageDigest is the expected digest; for every other pair, among them
    an empty claim digest against a non-empty expected digest, it returns
    the trust mismatch error. *)
Theorem trust_checker_exact_equality
    (claim : authenticatedAttestation) (expectedDigest : string) :
  (checkAuthenticatedAttestation attAuthChecker claim expectedDigest = None ↔
     authenticatedAttestation_ImageDigest claim = expectedDigest) ∧
  (authenticatedAttestation_ImageDigest claim ≠ expectedDigest →
     checkAuthenticatedAttestation attAuthChecker claim expectedDigest =
       Some TrustMismatch) ∧
  (expectedDigest ≠ "" →
     checkAuthenticatedAttestation attAuthChecker
       {| authenticatedAttestation_ImageDigest := "" |} expectedDigest =
       Some TrustMismatch).
Proof.
  cbn. split_and!.
  - destruct (String.eqb_spec (authenticatedAttestation_ImageDigest claim)
                expectedDigest); cbn; split; congruence.
  - intros Hne. by apply String.eqb_neq in Hne as ->.
  - intros Hne. by destruct expectedDigest.
Qed.


(** C9.  For every image digest and every sequence of public keys,
    [NewVerifier] returns a verifier and a nil error; the verifier holds
    the digest and the registry built from the keys. *)
Theorem NewVerifier_never_fails (imageDigest : string)
    (publicKeySet : list PublicKey) :
  ∃ v log,
    NewVerifier pgpVerifierImpl imageDigest publicKeySet = (v, None, log) ∧
    verifier_ImageDigest v = imageDigest ∧
    verifier_PublicKeys v = (indexPublicKeysByID publicKeySet).1 ∧
    log = (indexPublicKeysByID publicKeySet).2.
Proof.
  unfold NewVerifier. destruct (indexPublicKeysByID publicKeySet) as [m log].
  by eexists _, _.
Qed.

(** C10.  [formAuthenticatedAttestation] returns an empty ImageDigest for
    every payload; so, with the trust checker [attAuthChecker], whenever
    the algorithm verifier selected by the key's type succeeds,
    [VerifyAttestation] returns a nil error exactly when the verifier's
    expected ImageDigest is the empty string. *)
Theorem extractor_empty_digest (payload : bytes) v att publicKey :
  verifier_PublicKeys v !! Attestation_PublicKeyID att = Some publicKey →
  verifier_authenticatedAuthChecker v = Some attAuthChecker →
  selectedVerifierSucceeds v att publicKey →
  authenticatedAttestation_ImageDigest (formAuthenticatedAttestation payload)
    = "" ∧
  ((VerifyAttestation att v).1.1 = Returned None ↔ verifier_ImageDigest v = "").
Proof.
  intros Hlookup Hchecker Hsel. split; [done|].
  assert (∀ p, (afterVerification p v).1.1 = Returned None ↔
               verifier_ImageDigest v = "") as Hafter.
  { intros p. rewrite afterVerification_run, Hchecker. cbn.
    by destruct (verifier_ImageDigest v). }
  destruct Hsel as [(Htype & i & Hfield & Hok)
                   |[(Htype & i & p & Hfield & Hok)
                    |(Htype & i & p & Hfield & Hok)]].
  - rewrite (VerifyAttestation_pkix _ _ _ _ Hlookup Htype Hfield). cbn.
    rewrite Hok. specialize (Hafter (Attestation_SerializedPayload att)).
    by destruct (afterVerification _ v) as [[r v'] t].
  - rewrite (VerifyAttestation_pgp _ _ _ _ Hlookup Htype Hfield). cbn.
    rewrite Hok. specialize (Hafter p).
    by destruct (afterVerification _ v) as [[r v'] t].
  - rewrite (VerifyAttestation_jwt _ _ _ _ Hlookup Htype Hfield). cbn.
    rewrite Hok. specialize (Hafter p).
    by destruct (afterVerification _ v) as [[r v'] t].
Qed.

End Claims.

(** ** The claims on concrete inputs *)

(** Scenario A on the verifier that [NewVerifier] builds: its PKIX backend is
    the stub, and the run ends there. *)
Example scenarioA_NewVerifier :
  VerifyAttestation (sampleAttestation "k1")
    (NewVerifier samplePgpVerifier "sha256:abc" [sampleKey Pkix]).1.1 =
  (Returned (Some NotImplementedPkix),
   (NewVerifier samplePgpVerifier "sha256:abc" [sampleKey Pkix]).1.1,
   [call_verifyPkix [x05; x06] (String.list_byte_of_string "sha256:abc")
      [x01; x02]]).
Proof. reflexivity. Qed.

(** A JWT backend that rejects the signature: its error comes back as it
    is. *)
Example rejectingJwt_propagated :
  (VerifyAttestation (sampleAttestation "k1")
     (sampleVerifier "sha256:abc" [sampleKey Jwt] None
        (Some rejectingJwtVerifier))).1.1 =
  Returned (Some (errors_New "signature invalid")).
Proof. reflexivity. Qed.

(** A nil backend: the call through it panics. *)
Example nil_backend_panics :
  (VerifyAttestation (sampleAttestation "k1")
     (sampleVerifier "sha256:abc" [sampleKey Jwt] None None)).1.1 = Panicked.
Proof. reflexivity. Qed.

(** C1, the code at the failing input.  In scenario A (one PKIX key "k1",
    an attestation naming "k1" whose signature the PKIX verifier accepts
    over a payload holding the bytes of "sha256:abc", expected digest
    "sha256:abc") verification does not return success: it returns the
    trust mismatch error, because [formAuthenticatedAttestation] drops the
    verified payload. *)
Lemma scenarioA_not_success :
  verifier_ImageDigest scenarioA_verifier = "sha256:abc" ∧
  verifier_PublicKeys scenarioA_verifier =
    (indexPublicKeysByID [NewPublicKey Pkix [x01; x02] "k1"]).1 ∧
  Attestation_PublicKeyID (sampleAttestation "k1") = "k1" ∧
  Attestation_SerializedPayload (sampleAttestation "k1") =
    String.list_byte_of_string "sha256:abc" ∧
  verifier_pkixVerifier scenarioA_verifier = Some acceptingPkixVerifier ∧
  verifyPkix acceptingPkixVerifier
    (Attestation_Signature (sampleAttestation "k1"))
    (Attestation_SerializedPayload (sampleAttestation "k1")) [x01; x02] = None ∧
  (VerifyAttestation (sampleAttestation "k1") scenarioA_verifier).1.1 =
    Returned (Some TrustMismatch) ∧
  (VerifyAttestation (sampleAttestation "k1") scenarioA_verifier).1.1 ≠
    Returned None.
Proof. split_and!; done. Qed.

Lemma unknown_key_id_witness :
  verifier_PublicKeys scenarioA_verifier =
    (indexPublicKeysByID [sampleKey Pkix]).1 ∧
  (Attestation_PublicKeyID (sampleAttestation "missing")
     ∉ PublicKey_ID <$> [sampleKey Pkix]) ∧
  VerifyAttestation (sampleAttestation "missing") scenarioA_verifier =
    (Returned (Some (UnknownKeyID "missing")), scenarioA_verifier, []).
Proof.
  assert (Attestation_PublicKeyID (sampleAttestation "missing")
            ∉ PublicKey_ID <$> [sampleKey Pkix]) as Hnotin
    by (apply (bool_decide_unpack _); vm_compute; exact I).
  split; [reflexivity|]. split; [exact Hnotin|].
  apply (unknown_key_id (KT:=intKeyTypes) [sampleKey Pkix] scenarioA_verifier
           (sampleAttestation "missing")); [reflexivity|exact Hnotin].
Defined.

Lemma duplicate_key_last_wins_witness :
  2 ≤ length (keysWithID "k1" duplicateKeys) ∧
  ∃ k before after,
    duplicateKeys = before ++ k :: after ∧
    PublicKey_ID k = "k1" ∧
    ("k1" ∉ PublicKey_ID <$> after) ∧
    (indexPublicKeysByID duplicateKeys).1 !! "k1" = Some k ∧
    duplicateKeyWarning "k1" ∈ (indexPublicKeysByID duplicateKeys).2 ∧
    (NewVerifier samplePgpVerifier "sha256:abc" duplicateKeys).1.2 = None ∧
    (verifier_PublicKeys
       (NewVerifier samplePgpVerifier "sha256:abc" duplicateKeys).1.1)
      !! "k1" = Some k.
Proof.
  assert (2 ≤ length (keysWithID "k1" duplicateKeys)) as Hlen
    by (vm_compute; lia).
  split; [exact Hlen|].
  exact (duplicate_key_last_wins (KT:=intKeyTypes) samplePgpVerifier
           "sha256:abc" duplicateKeys "k1" Hlen).
Defined.

(** The registry of [duplicateKeys] holds the PGP key under "k1". *)
Example duplicateKeys_lookup :
  (indexPublicKeysByID duplicateKeys).1 !! "k1" =
    Some (NewPublicKey Pgp [x04] "k1") ∧
  (indexPublicKeysByID duplicateKeys).2 = [duplicateKeyWarning "k1"].
Proof. split; reflexivity. Qed.

Lemma unsupported_key_mode_witness :
  verifier_PublicKeys unrecognizedKeyVerifier
    !! Attestation_PublicKeyID (sampleAttestation "k1") =
    Some (sampleKey 0%Z) ∧
  PublicKey_KeyType (sampleKey 0%Z) ≠ Pkix ∧
  PublicKey_KeyType (sampleKey 0%Z) ≠ Pgp ∧
  PublicKey_KeyType (sampleKey 0%Z) ≠ Jwt ∧
  VerifyAttestation (sampleAttestation "k1") unrecognizedKeyVerifier =
    (Returned (Some UnsupportedKeyMode), unrecognizedKeyVerifier, []).
Proof.
  split; [reflexivity|].
  repeat (split; [vm_compute; discriminate|]).
  apply (unsupported_key_mode (KT:=intKeyTypes) unrecognizedKeyVerifier
           (sampleAttestation "k1") (sampleKey 0%Z));
    [reflexivity|vm_compute; discriminate..].
Defined.

Lemma pkix_payload_unchanged_witness :
  verifier_PublicKeys scenarioA_verifier
    !! Attestation_PublicKeyID (sampleAttestation "k1") =
    Some (sampleKey Pkix) ∧
  PublicKey_KeyType (sampleKey Pkix) = Pkix ∧
  verifier_pkixVerifier scenarioA_verifier = Some acceptingPkixVerifier ∧
  verifyPkix acceptingPkixVerifier
    (Attestation_Signature (sampleAttestation "k1"))
    (Attestation_SerializedPayload (sampleAttestation "k1"))
    (PublicKey_KeyData (sampleKey Pkix)) = None ∧
  ∃ r t,
    VerifyAttestation (sampleAttestation "k1") scenarioA_verifier =
      (r, scenarioA_verifier, t) ∧
    ∀ payload, call_formAuthenticatedAttestation payload ∈ t ↔
               payload = Attestation_SerializedPayload (sampleAttestation "k1").
Proof.
  repeat (split; [reflexivity|]).
  apply (pkix_payload_unchanged (KT:=intKeyTypes) scenarioA_verifier
           (sampleAttestation "k1") (sampleKey Pkix) acceptingPkixVerifier);
    reflexivity.
Defined.

Lemma trust_checker_exact_equality_witness :
  "sha256:abc" ≠ "" ∧
  checkAuthenticatedAttestation attAuthChecker
    {| authenticatedAttestation_ImageDigest := "" |} "sha256:abc" =
    Some TrustMismatch.
Proof.
  assert ("sha256:abc" ≠ "") as Hne by discriminate.
  split; [exact Hne|].
  exact (proj2 (proj2 (trust_checker_exact_equality
                         {| authenticatedAttestation_ImageDigest := "" |}
                         "sha256:abc")) Hne).
Defined.



Lemma extractor_empty_digest_witness :
  verifier_PublicKeys emptyDigestVerifier
    !! Attestation_PublicKeyID (sampleAttestation "k1") = Some (sampleKey Pgp) ∧
  verifier_authenticatedAuthChecker emptyDigestVerifier = Some attAuthChecker ∧
  selectedVerifierSucceeds emptyDigestVerifier (sampleAttestation "k1")
    (sampleKey Pgp) ∧
  authenticatedAttestation_ImageDigest
    (formAuthenticatedAttestation [x07]) = "" ∧
  ((VerifyAttestation (sampleAttestation "k1") emptyDigestVerifier).1.1 =
     Returned None ↔ verifier_ImageDigest emptyDigestVerifier = "").
Proof.
  assert (selectedVerifierSucceeds emptyDigestVerifier (sampleAttestation "k1")
            (sampleKey Pgp)) as Hsel.
  { right; left. split; [reflexivity|].
    exists samplePgpVerifier, [x05; x06]. split; reflexivity. }
  split; [reflexivity|]. split; [reflexivity|]. split; [exact Hsel|].
  apply (extractor_empty_digest (KT:=intKeyTypes) [x07] emptyDigestVerifier
           (sampleAttestation "k1") (sampleKey Pgp));
    [reflexivity|reflexivity|exact Hsel].
Defined.

(** With an empty expected digest and an accepting backend, verification
    succeeds. *)
Example emptyDigest_success :
  (VerifyAttestation (sampleAttestation "k1") emptyDigestVerifier).1.1 =
    Returned None.
Proof. reflexivity. Qed.

(** ** Further properties of the key registry *)

Section RegistryExtras.
Context {KT : KeyTypes}.

Implicit Types (publicKey k : PublicKey) (keys : list PublicKey).
Implicit Types (keyMap : gmap string PublicKey) (log : list event).
Implicit Types (id : string).

Lemma keysWithID_nil_iff id keys :
  keysWithID id keys = [] ↔ id ∉ PublicKey_ID <$> keys.
Proof.
  unfold keysWithID. split.
  - intros Hnil (k & Hid & Hin)%list_elem_of_fmap.
    assert (k ∈ filter (λ k, PublicKey_ID k = id) keys) as Hf
      by (by apply list_elem_of_filter).
    rewrite Hnil in Hf. by apply not_elem_of_nil in Hf.
  - intros Hnotin. induction keys as [|k keys IH]; [done|].
    rewrite fmap_cons in Hnotin. apply not_elem_of_cons in Hnotin as [Hne Hnotin].
    rewrite filter_cons_False by congruence. by apply IH.
Qed.

(** Map and log after the loop, from any state of the loop: a count. *)
Lemma foldl_indexStep_count keys : ∀ keyMap log,
  length (foldl indexStep (keyMap, log) keys).2
    + size (foldl indexStep (keyMap, log) keys).1 =
  length log + size keyMap + length keys.
Proof.
  induction keys as [|k keys IH]; intros keyMap log; [cbn; lia|].
  cbn [foldl]. unfold indexStep at 2 4. rewrite IH. cbn [length].
  destruct (keyMap !! PublicKey_ID k) as [k'|] eqn:Hk.
  - rewrite map_size_insert, Hk, length_app. cbn. lia.
  - rewrite map_size_insert, Hk. lia.
Qed.

(** Where an event of the log after the loop comes from. *)
Lemma foldl_indexStep_log_inv keys : ∀ keyMap log e,
  e ∈ (foldl indexStep (keyMap, log) keys).2 →
  e ∈ log ∨
  ∃ id, e = duplicateKeyWarning id ∧
        ((is_Some (keyMap !! id) ∧ keysWithID id keys ≠ []) ∨
         2 ≤ length (keysWithID id keys)).
Proof.
  induction keys as [|k keys IH]; intros keyMap log e He; [by left|].
  cbn [foldl] in He. unfold indexStep at 2 in He.
  apply IH in He as [He|(id & -> & Hid)].
  - destruct (keyMap !! PublicKey_ID k) as [k'|] eqn:Hk; [|by left].
    apply elem_of_app in He as [He|He]; [by left|].
    apply list_elem_of_singleton in He as ->. right.
    exists (PublicKey_ID k). split; [done|]. left. split; [by eexists|].
    unfold keysWithID. rewrite filter_cons. by rewrite decide_True.
  - right. exists id. split; [done|].
    unfold keysWithID in *. rewrite filter_cons.
    destruct (decide (PublicKey_ID k = id)) as [Heq|Hne].
    + destruct Hid as [[_ Hnil]|Hlen].
      * right. destruct (filter _ keys); [done|]. cbn. lia.
      * right. cbn. lia.
    + destruct Hid as [[Hin Hnil]|Hlen]; [|by right].
      left. split; [|done]. by rewrite lookup_insert_ne in Hin.
Qed.

(** X1.  The IDs under which the registry holds a key are the IDs of the
    keys of the input: every key supplied can be looked up by its ID, and
    no other ID resolves. *)
Theorem registry_domain keys :
  dom (indexPublicKeysByID keys).1 = list_to_set (PublicKey_ID <$> keys).
Proof.
  apply set_eq. intros id.
  rewrite elem_of_dom, indexPublicKeysByID_lookup, elem_of_list_to_set.
  rewrite last_is_Some. split.
  - intros Hne. destruct (decide (id ∈ PublicKey_ID <$> keys)) as [|Hnotin];
      [done|]. by apply keysWithID_nil_iff in Hnotin.
  - by intros Hin Hnil%keysWithID_nil_iff.
Qed.

(** X2.  A key that the registry returns for an ID is a key of the input,
    and that ID is its own: the registry makes up no key and files none
    under the ID of another. *)
Theorem registry_entries_sound keys id k :
  (indexPublicKeysByID keys).1 !! id = Some k →
  k ∈ keys ∧ PublicKey_ID k = id.
Proof.
  rewrite indexPublicKeysByID_lookup. intros Hlast.
  apply last_Some_elem_of in Hlast.
  by apply list_elem_of_filter in Hlast as [Hid Hin].
Qed.

(** X3.  The warnings logged and the entries of the registry add up to the
    keys of the input: each key either adds an entry or overwrites one and
    is warned about. *)
Theorem registry_warning_count keys :
  length (indexPublicKeysByID keys).2 + size (indexPublicKeysByID keys).1 =
  length keys.
Proof.
  unfold indexPublicKeysByID. rewrite foldl_indexStep_count.
  rewrite map_size_empty. cbn. lia.
Qed.

(** X4.  The log of the registry holds the duplicate-key warning of an ID
    exactly when two or more keys of the input have that ID, and it holds
    nothing else. *)
Theorem registry_warning_iff keys (e : event) :
  e ∈ (indexPublicKeysByID keys).2 ↔
  ∃ id, e = duplicateKeyWarning id ∧ 2 ≤ length (keysWithID id keys).
Proof.
  split.
  - intros He. apply foldl_indexStep_log_inv in He
      as [He|(id & -> & [[Hin _]|Hlen])].
    + by apply elem_of_nil in He.
    + rewrite lookup_empty in Hin. by destruct Hin.
    + by exists id.
  - intros (id & -> & Hlen). by apply foldl_indexStep_warns_twice.
Qed.

(** X5.  When the IDs of the input are pairwise different, every key of
    the input is found under its ID, nothing is logged and the registry has
    as many entries as the input has keys. *)
Theorem registry_unique_ids_roundtrip keys :
  NoDup (PublicKey_ID <$> keys) →
  (∀ k, k ∈ keys → (indexPublicKeysByID keys).1 !! PublicKey_ID k = Some k) ∧
  (indexPublicKeysByID keys).2 = [] ∧
  size (indexPublicKeysByID keys).1 = length keys.
Proof.
  intros Hnodup.
  assert (∀ id, length (keysWithID id keys) ≤ 1) as Hone.
  { intros id. induction keys as [|k keys IH]; [cbn; lia|].
    apply NoDup_cons in Hnodup as [Hnotin Hnodup].
    unfold keysWithID in *. rewrite filter_cons.
    destruct (decide (PublicKey_ID k = id)) as [<-|Hne]; [|by apply IH].
    apply keysWithID_nil_iff in Hnotin. unfold keysWithID in Hnotin.
    rewrite Hnotin. cbn. lia. }
  assert ((indexPublicKeysByID keys).2 = []) as Hlog.
  { destruct (indexPublicKeysByID keys).2 as [|e log] eqn:Heq; [done|].
    assert (e ∈ (indexPublicKeysByID keys).2) as He
      by (rewrite Heq; apply list_elem_of_here).
    apply foldl_indexStep_log_inv in He as [He|(id & -> & [[Hin _]|Hlen])].
    - by apply elem_of_nil in He.
    - rewrite lookup_empty in Hin. by destruct Hin.
    - specialize (Hone id). lia. }
  split_and!; [|done|].
  - intros k Hin. rewrite indexPublicKeysByID_lookup.
    assert (k ∈ keysWithID (PublicKey_ID k) keys) as Hf
      by (by apply list_elem_of_filter).
    specialize (Hone (PublicKey_ID k)).
    destruct (keysWithID (PublicKey_ID k) keys) as [|k1 [|k2 l]];
      [by apply elem_of_nil in Hf| |cbn in Hone; lia].
    by apply list_elem_of_singleton in Hf as ->.
  - pose proof (registry_count_aux := foldl_indexStep_count keys ∅ []).
    fold (indexPublicKeysByID keys) in registry_count_aux.
    rewrite Hlog, map_size_empty in registry_count_aux.
    cbn in registry_count_aux. lia.
Qed.

(** X6.  The registry of two key sets one after the other is the registry
    of the second laid over the registry of the first: on an ID that both
    have, the key of the second set wins. *)
Theorem registry_app keys1 keys2 :
  (indexPublicKeysByID (keys1 ++ keys2)).1 =
  (indexPublicKeysByID keys2).1 ∪ (indexPublicKeysByID keys1).1.
Proof.
  apply map_eq. intros id.
  rewrite lookup_union, !indexPublicKeysByID_lookup.
  unfold keysWithID. rewrite filter_app, last_app.
  destruct (last (filter _ keys2)), (last (filter _ keys1)); done.
Qed.

End RegistryExtras.

(** ** Further properties of the verification engine *)

Section EngineExtras.
Context {KT : KeyTypes} (pgpVerifierImpl : pgpVerifier).

Implicit Types (v : verifier) (att : Attestation) (publicKey : PublicKey).

(** Every run on a resolved key falls under one of three cases. *)
Lemma selectedVerifier_cases v att publicKey :
  ¬ recognizedKeyType publicKey ∨
  selectedVerifierMissing v publicKey ∨
  ∃ payload err, selectedVerifierReturns v att publicKey payload err.
Proof.
  unfold recognizedKeyType, selectedVerifierMissing, selectedVerifierReturns.
  destruct (decide (PublicKey_KeyType publicKey = Pkix)) as [Hpkix|Hpkix].
  { destruct (verifier_pkixVerifier v) as [i|] eqn:Hi; [|by right; left; left].
    right; right. eexists _, _. left. split_and!; [done..|]. by exists i. }
  destruct (decide (PublicKey_KeyType publicKey = Pgp)) as [Hpgp|Hpgp].
  { destruct (verifier_pgpVerifier v) as [i|] eqn:Hi;
      [|by right; left; right; left].
    right; right.
    destruct (verifyPgp i (Attestation_Signature att)
                (PublicKey_KeyData publicKey)) as [payload err] eqn:Hr.
    exists payload, err. right; left. split; [done|]. by exists i. }
  destruct (decide (PublicKey_KeyType publicKey = Jwt)) as [Hjwt|Hjwt].
  { destruct (verifier_jwtVerifier v) as [i|] eqn:Hi;
      [|by right; left; right; right].
    right; right.
    destruct (verifyJwt i (Attestation_Signature att)
                (PublicKey_KeyData publicKey)) as [payload err] eqn:Hr.
    exists payload, err. right; right. split; [done|]. by exists i. }
  left. by intros [?|[?|?]].
Qed.

(** The run when the selected verifier is behind a nil interface. *)
Lemma VerifyAttestation_missing v att publicKey :
  verifier_PublicKeys v !! Attestation_PublicKeyID att = Some publicKey →
  selectedVerifierMissing v publicKey →
  VerifyAttestation att v = (Panicked, v, []).
Proof.
  intros Hlookup [[Htype Hnil]|[[Htype Hnil]|[Htype Hnil]]];
    run_method; rewrite Hlookup.
  - rewrite decide_True by done. by rewrite Hnil.
  - rewrite decide_False by (rewrite Htype; apply Pgp_ne_Pkix).
    rewrite decide_True by done. by rewrite Hnil.
  - rewrite decide_False by (rewrite Htype; apply Jwt_ne_Pkix).
    rewrite decide_False by (rewrite Htype; apply Jwt_ne_Pgp).
    rewrite decide_True by done. by rewrite Hnil.
Qed.

(** The run when the selected verifier is present. *)
Lemma VerifyAttestation_returns v att publicKey payload err :
  verifier_PublicKeys v !! Attestation_PublicKeyID att = Some publicKey →
  selectedVerifierReturns v att publicKey payload err →
  VerifyAttestation att v =
    match err with
    | Some e => (Returned (Some e), v, [selectedCall att publicKey])
    | None =>
        let '(r, v', t) := afterVerification payload v in
        (r, v', selectedCall att publicKey :: t)
    end.
Proof.
  intros Hlookup [(Htype & -> & i & Hi & Hr)
                 |[(Htype & i & Hi & Hr)|(Htype & i & Hi & Hr)]];
    unfold selectedCall.
  - rewrite (VerifyAttestation_pkix _ _ _ _ Hlookup Htype Hi). cbn zeta.
    rewrite Hr. by rewrite decide_True by done.
  - rewrite (VerifyAttestation_pgp _ _ _ _ Hlookup Htype Hi). cbn zeta.
    rewrite Hr. rewrite decide_False by (rewrite Htype; apply Pgp_ne_Pkix).
    by rewrite decide_True by done.
  - rewrite (VerifyAttestation_jwt _ _ _ _ Hlookup Htype Hi). cbn zeta.
    rewrite Hr. rewrite decide_False by (rewrite Htype; apply Jwt_ne_Pkix).
    by rewrite decide_False by (rewrite Htype; apply Jwt_ne_Pgp).
Qed.

Lemma VerifyAttestation_unrecognized v att publicKey :
  verifier_PublicKeys v !! Attestation_PublicKeyID att = Some publicKey →
  ¬ recognizedKeyType publicKey →
  VerifyAttestation att v = (Returned (Some UnsupportedKeyMode), v, []).
Proof.
  intros Hlookup Hnot. apply (VerifyAttestation_default _ _ _ Hlookup);
    intros Htype; apply Hnot; unfold recognizedKeyType; auto.
Qed.

Lemma selectedCall_not_after att publicKey :
  ¬ afterVerificationEvent (selectedCall att publicKey).
Proof. unfold selectedCall. repeat case_decide; cbn; tauto. Qed.

Lemma selectedVerifierReturns_recognized v att publicKey payload err :
  selectedVerifierReturns v att publicKey payload err →
  recognizedKeyType publicKey.
Proof.
  unfold recognizedKeyType.
  intros [(Htype & _)|[(Htype & _)|(Htype & _)]]; auto.
Qed.

Lemma selectedCall_recognized att publicKey :
  recognizedKeyType publicKey →
  (PublicKey_KeyType publicKey = Pkix ∧
   selectedCall att publicKey =
     call_verifyPkix (Attestation_Signature att)
       (Attestation_SerializedPayload att) (PublicKey_KeyData publicKey)) ∨
  (PublicKey_KeyType publicKey = Pgp ∧
   selectedCall att publicKey =
     call_verifyPgp (Attestation_Signature att) (PublicKey_KeyData publicKey)) ∨
  (PublicKey_KeyType publicKey = Jwt ∧
   selectedCall att publicKey =
     call_verifyJwt (Attestation_Signature att) (PublicKey_KeyData publicKey)).
Proof.
  unfold selectedCall. intros [Htype|[Htype|Htype]].
  - left. by rewrite decide_True.
  - right; left. rewrite decide_False by (rewrite Htype; apply Pgp_ne_Pkix).
    by rewrite decide_True.
  - right; right. rewrite decide_False by (rewrite Htype; apply Jwt_ne_Pkix).
    by rewrite decide_False by (rewrite Htype; apply Jwt_ne_Pgp).
Qed.

(** The trace of any run: nothing, or the selected call followed by
    nothing, by the extractor call, or by the extractor and checker calls. *)
Lemma VerifyAttestation_trace v att :
  (VerifyAttestation att v).2 = [] ∨
  ∃ publicKey payload err,
    verifier_PublicKeys v !! Attestation_PublicKeyID att = Some publicKey ∧
    selectedVerifierReturns v att publicKey payload err ∧
    match err with
    | Some e =>
        VerifyAttestation att v =
          (Returned (Some e), v, [selectedCall att publicKey])
    | None =>
        match verifier_authenticatedAuthChecker v with
        | Some c =>
            VerifyAttestation att v =
              (Returned (checkAuthenticatedAttestation c
                           (formAuthenticatedAttestation payload)
                           (verifier_ImageDigest v)), v,
               [selectedCall att publicKey;
                call_formAuthenticatedAttestation payload;
                call_checkAuthenticatedAttestation
                  (formAuthenticatedAttestation payload)
                  (verifier_ImageDigest v)])
        | None =>
            VerifyAttestation att v =
              (Panicked, v,
               [selectedCall att publicKey;
                call_formAuthenticatedAttestation payload])
        end
    end.
Proof.
  destruct (verifier_PublicKeys v !! Attestation_PublicKeyID att)
    as [publicKey|] eqn:Hlookup.
  2: { left. by rewrite VerifyAttestation_unknown. }
  destruct (selectedVerifier_cases v att publicKey)
    as [Hnot|[Hmiss|(payload & err & Hret)]].
  - left. by rewrite (VerifyAttestation_unrecognized _ _ _ Hlookup Hnot).
  - left. by rewrite (VerifyAttestation_missing _ _ _ Hlookup Hmiss).
  - right. exists publicKey, payload, err. split_and!; [done..|].
    rewrite (VerifyAttestation_returns _ _ _ _ _ Hlookup Hret).
    destruct err as [e|]; [done|]. rewrite afterVerification_run.
    by destruct (verifier_authenticatedAuthChecker v).
Qed.

(** X7.  The extractor is called on a payload exactly when the attestation's
    key resolves and the algorithm verifier selected for it is present and
    has returned that payload with a nil error: no unverified payload
    reaches the extractor. *)
Theorem extractor_only_after_verification v att (payload : bytes) :
  call_formAuthenticatedAttestation payload ∈ (VerifyAttestation att v).2 ↔
  ∃ publicKey,
    verifier_PublicKeys v !! Attestation_PublicKeyID att = Some publicKey ∧
    selectedVerifierReturns v att publicKey payload None.
Proof.
  split.
  - intros Hin.
    destruct (VerifyAttestation_trace v att)
      as [Hnil|(publicKey & p & err & Hlookup & Hret & Hrun)].
    { rewrite Hnil in Hin. by apply elem_of_nil in Hin. }
    pose proof (selectedCall_not_after att publicKey) as Hcall.
    exists publicKey. split; [done|].
    destruct err as [e|]; [|destruct (verifier_authenticatedAuthChecker v)];
      rewrite Hrun in Hin; cbn in Hin; trace_cases Hin;
      try done; by rewrite <- Hin in Hcall.
  - intros (publicKey & Hlookup & Hret).
    rewrite (VerifyAttestation_returns _ _ _ _ _ Hlookup Hret).
    rewrite afterVerification_run.
    destruct (verifier_authenticatedAuthChecker v); cbn;
      apply list_elem_of_further, list_elem_of_here.
Qed.

(** X8.  Whenever the trust checker is called, it is called with the
    verifier's own ImageDigest as expected digest and with a claim whose
    ImageDigest is empty, and what the checker returns is the result of the
    run. *)
Theorem checker_gets_verifier_digest v att
    (actual : authenticatedAttestation) (imageDigest : string) :
  call_checkAuthenticatedAttestation actual imageDigest
    ∈ (VerifyAttestation att v).2 →
  imageDigest = verifier_ImageDigest v ∧
  authenticatedAttestation_ImageDigest actual = "" ∧
  ∃ c, verifier_authenticatedAuthChecker v = Some c ∧
       (VerifyAttestation att v).1.1 =
         Returned (checkAuthenticatedAttestation c actual imageDigest).
Proof.
  intros Hin.
  destruct (VerifyAttestation_trace v att)
    as [Hnil|(publicKey & p & err & Hlookup & Hret & Hrun)].
  { rewrite Hnil in Hin. by apply elem_of_nil in Hin. }
  pose proof (selectedCall_not_after att publicKey) as Hcall.
  destruct err as [e|];
    [|destruct (verifier_authenticatedAuthChecker v) as [c|] eqn:Hc];
    rewrite Hrun in Hin |- *; cbn in Hin; trace_cases Hin;
    try (by rewrite <- Hin in Hcall).
  split_and!; [done..|]. by exists c.
Qed.

(** X9.  A call of an algorithm verifier in the trace is the call of the
    family of the resolved key, on the attestation's Signature and the
    key's KeyData (and, for PKIX, the attestation's SerializedPayload): no
    backend of another family is called. *)
Theorem verifier_call_matches_key v att publicKey :
  verifier_PublicKeys v !! Attestation_PublicKeyID att = Some publicKey →
  (∀ s p k, call_verifyPkix s p k ∈ (VerifyAttestation att v).2 →
     PublicKey_KeyType publicKey = Pkix ∧ s = Attestation_Signature att ∧
     p = Attestation_SerializedPayload att ∧ k = PublicKey_KeyData publicKey) ∧
  (∀ s k, call_verifyPgp s k ∈ (VerifyAttestation att v).2 →
     PublicKey_KeyType publicKey = Pgp ∧ s = Attestation_Signature att ∧
     k = PublicKey_KeyData publicKey) ∧
  (∀ s k, call_verifyJwt s k ∈ (VerifyAttestation att v).2 →
     PublicKey_KeyType publicKey = Jwt ∧ s = Attestation_Signature att ∧
     k = PublicKey_KeyData publicKey).
Proof.
  intros Hlookup.
  assert (∀ e, e ∈ (VerifyAttestation att v).2 →
               recognizedKeyType publicKey ∧
               (e = selectedCall att publicKey ∨ afterVerificationEvent e))
    as Hevents.
  { intros e Hin.
    destruct (VerifyAttestation_trace v att)
      as [Hnil|(publicKey' & p & err & Hlookup' & Hret & Hrun)].
    { rewrite Hnil in Hin. by apply elem_of_nil in Hin. }
    assert (publicKey' = publicKey) as -> by congruence.
    split; [by eapply selectedVerifierReturns_recognized|].
    destruct err as [e'|]; [|destruct (verifier_authenticatedAuthChecker v)];
      rewrite Hrun in Hin; cbn in Hin; trace_cases Hin; cbn; auto. }
  split_and!; intros; edestruct Hevents as [Hrec [Hcall|Hafter]];
    try done; try (by destruct Hafter);
    destruct (selectedCall_recognized att publicKey Hrec)
      as [[Htype Heq]|[[Htype Heq]|[Htype Heq]]];
    rewrite Heq in Hcall; by simplify_eq.
Qed.

(** X10.  When the algorithm verifier selected for the resolved key returns
    an error, that error is the result of the run as it is, and neither
    the extractor nor the trust checker is called. *)
Theorem verifier_error_propagated v att publicKey (payload : bytes)
    (err : errorValue) :
  verifier_PublicKeys v !! Attestation_PublicKeyID att = Some publicKey →
  selectedVerifierReturns v att publicKey payload (Some err) →
  (VerifyAttestation att v).1.1 = Returned (Some err) ∧
  ∀ e, e ∈ (VerifyAttestation att v).2 → ¬ afterVerificationEvent e.
Proof.
  intros Hlookup Hret.
  rewrite (VerifyAttestation_returns _ _ _ _ _ Hlookup Hret).
  split; [done|]. intros e Hin. cbn in Hin. trace_cases Hin.
  apply selectedCall_not_after.
Qed.

(** X11.  A call of [VerifyAttestation] panics when the receiver is nil,
    when the attestation is nil, when the key resolves and the interface of
    the algorithm verifier selected for it is nil, and when that verifier
    returns a nil error and the interface of the trust checker is nil. *)
Theorem nil_dereference_panics (v : option verifier)
    (att : option Attestation) :
  v = None ∨ att = None ∨
  (∃ v0 att0 publicKey,
     v = Some v0 ∧ att = Some att0 ∧
     verifier_PublicKeys v0 !! Attestation_PublicKeyID att0 = Some publicKey ∧
     (selectedVerifierMissing v0 publicKey ∨
      (verifier_authenticatedAuthChecker v0 = None ∧
       ∃ payload, selectedVerifierReturns v0 att0 publicKey payload None))) →
  (VerifyAttestation_ptr v att).1 = Panicked.
Proof.
  intros [->|[->|(v0 & att0 & publicKey & -> & -> & Hlookup & Hcase)]].
  - done.
  - by destruct v.
  - cbn. destruct Hcase as [Hmiss|(Hnil & payload & Hret)].
    + by rewrite (VerifyAttestation_missing _ _ _ Hlookup Hmiss).
    + rewrite (VerifyAttestation_returns _ _ _ _ _ Hlookup Hret).
      by rewrite afterVerification_run, Hnil.
Qed.

(** The fields of the verifier that [NewVerifier] builds. *)
Lemma NewVerifier_fields (imageDigest : string) (keys : list PublicKey) :
  (NewVerifier pgpVerifierImpl imageDigest keys).1.1 =
    {| verifier_ImageDigest := imageDigest;
       verifier_PublicKeys := (indexPublicKeysByID keys).1;
       verifier_pkixVerifier := Some pkixVerifierImpl;
       verifier_pgpVerifier := Some pgpVerifierImpl;
       verifier_jwtVerifier := Some jwtVerifierImpl;
       verifier_authenticatedAuthChecker := Some attAuthChecker |}.
Proof. unfold NewVerifier. by destruct (indexPublicKeysByID keys). Qed.

(** X12.  On a verifier built by [NewVerifier], a call with an attestation
    whose PublicKeyID does not resolve to a PGP key returns, and what it
    returns is an error: the call neither panics nor accepts, and the PGP
    backend is not called.  A call with a nil attestation panics. *)
Theorem NewVerifier_rejects_outside_pgp (imageDigest : string)
    (keys : list PublicKey) att :
  (∀ publicKey,
     last (keysWithID (Attestation_PublicKeyID att) keys) = Some publicKey →
     PublicKey_KeyType publicKey ≠ Pgp) →
  (∃ err : errorValue,
     (VerifyAttestation_ptr
        (Some (NewVerifier pgpVerifierImpl imageDigest keys).1.1)
        (Some att)).1 = Returned (Some err)) ∧
  (∀ s k, call_verifyPgp s k ∉
     (VerifyAttestation_ptr
        (Some (NewVerifier pgpVerifierImpl imageDigest keys).1.1)
        (Some att)).2) ∧
  (VerifyAttestation_ptr
     (Some (NewVerifier pgpVerifierImpl imageDigest keys).1.1) None).1 =
    Panicked.
Proof.
  intros Hpgp. rewrite NewVerifier_fields.
  set (v := {| verifier_ImageDigest := imageDigest |}). cbn.
  destruct (verifier_PublicKeys v !! Attestation_PublicKeyID att)
    as [publicKey|] eqn:Hlookup.
  2: { rewrite (VerifyAttestation_unknown _ _ Hlookup). cbn.
       split_and!; [by eexists| |done]. intros s k Hin.
       by apply elem_of_nil in Hin. }
  assert (PublicKey_KeyType publicKey ≠ Pgp) as Hne.
  { apply Hpgp. cbn in Hlookup. by rewrite indexPublicKeysByID_lookup in Hlookup. }
  destruct (decide (PublicKey_KeyType publicKey = Pkix)) as [Hpkix|Hpkix].
  { rewrite (VerifyAttestation_pkix v _ _ pkixVerifierImpl Hlookup Hpkix eq_refl).
    cbn. split_and!; [by eexists| |done]. intros s k Hin. trace_cases Hin. }
  destruct (decide (PublicKey_KeyType publicKey = Jwt)) as [Hjwt|Hjwt].
  { rewrite (VerifyAttestation_jwt v _ _ jwtVerifierImpl Hlookup Hjwt eq_refl).
    cbn. split_and!; [by eexists| |done]. intros s k Hin. trace_cases Hin. }
  rewrite (VerifyAttestation_default v _ _ Hlookup Hpkix Hne Hjwt). cbn.
  split_and!; [by eexists| |done]. intros s k Hin. by apply elem_of_nil in Hin.
Qed.

(** X13.  On a verifier built by [NewVerifier], a run returns a nil error
    exactly when the expected digest is the empty string, the last key of
    the key set with the attestation's PublicKeyID is a PGP key, and the PGP
    verifier accepts the signature under that key: no attestation under a
    PKIX or JWT key is ever accepted. *)
Theorem NewVerifier_accepts_iff (imageDigest : string)
    (keys : list PublicKey) att :
  (VerifyAttestation att
     (NewVerifier pgpVerifierImpl imageDigest keys).1.1).1.1 = Returned None ↔
  imageDigest = "" ∧
  ∃ publicKey payload,
    last (keysWithID (Attestation_PublicKeyID att) keys) = Some publicKey ∧
    PublicKey_KeyType publicKey = Pgp ∧
    verifyPgp pgpVerifierImpl (Attestation_Signature att)
      (PublicKey_KeyData publicKey) = (payload, None).
Proof.
  rewrite NewVerifier_fields.
  set (v := {| verifier_ImageDigest := imageDigest |}).
  assert (∀ p, (afterVerification p v).1.1 = Returned None ↔ imageDigest = "")
    as Hafter.
  { intros p. rewrite afterVerification_run. cbn. by destruct imageDigest. }
  split.
  - intros Hok.
    destruct (verifier_PublicKeys v !! Attestation_PublicKeyID att)
      as [publicKey|] eqn:Hlookup.
    2: { by rewrite VerifyAttestation_unknown in Hok. }
    destruct (selectedVerifier_cases v att publicKey)
      as [Hnot|[Hmiss|(payload & err & Hret)]].
    + by rewrite (VerifyAttestation_unrecognized _ _ _ Hlookup Hnot) in Hok.
    + by rewrite (VerifyAttestation_missing _ _ _ Hlookup Hmiss) in Hok.
    + rewrite (VerifyAttestation_returns _ _ _ _ _ Hlookup Hret) in Hok.
      destruct err as [e|]; [done|].
      specialize (Hafter payload).
      destruct (afterVerification payload v) as [[r v'] t]. cbn in *.
      split; [by apply Hafter|]. exists publicKey, payload.
      cbn in Hlookup. rewrite indexPublicKeysByID_lookup in Hlookup.
      split; [done|].
      destruct Hret as [(_ & _ & i & Hi & Hr)
                       |[(Htype & i & Hi & Hr)|(_ & i & Hi & Hr)]];
        cbn in Hi; simplify_eq; [done..|]. split; [done|]. done.
  - intros (Hdigest & publicKey & payload & Hlast & Htype & Hr).
    assert (verifier_PublicKeys v !! Attestation_PublicKeyID att
              = Some publicKey) as Hlookup
      by (by cbn; rewrite indexPublicKeysByID_lookup).
    assert (selectedVerifierReturns v att publicKey payload None) as Hret.
    { right; left. split; [done|]. by exists pgpVerifierImpl. }
    rewrite (VerifyAttestation_returns _ _ _ _ _ Hlookup Hret).
    specialize (Hafter payload).
    destruct (afterVerification payload v) as [[r v'] t]. cbn in *.
    by apply Hafter.
Qed.

(** X14.  For an attestation whose key is not a PKIX key, the run does not
    depend on the attestation's SerializedPayload: replacing it changes
    neither the result nor the trace. *)
Theorem payload_unread_outside_pkix v att publicKey (payload : bytes) :
  verifier_PublicKeys v !! Attestation_PublicKeyID att = Some publicKey →
  PublicKey_KeyType publicKey ≠ Pkix →
  VerifyAttestation
    {| Attestation_PublicKeyID := Attestation_PublicKeyID att;
       Attestation_Signature := Attestation_Signature att;
       Attestation_SerializedPayload := payload |} v =
  VerifyAttestation att v.
Proof.
  intros Hlookup Htype. run_method. cbn. rewrite Hlookup.
  by rewrite !(decide_False (P := PublicKey_KeyType publicKey = Pkix)).
Qed.

(** X15.  Two key sets whose last key with the attestation's PublicKeyID is
    the same (or which both have none) give verifiers on which the run ends
    alike, with the same trace: keys under other IDs and keys that a later
    one overwrites do not matter. *)
Theorem only_last_matching_key_matters (imageDigest : string)
    (keys1 keys2 : list PublicKey) att :
  last (keysWithID (Attestation_PublicKeyID att) keys1) =
  last (keysWithID (Attestation_PublicKeyID att) keys2) →
  (VerifyAttestation att
     (NewVerifier pgpVerifierImpl imageDigest keys1).1.1).1.1 =
  (VerifyAttestation att
     (NewVerifier pgpVerifierImpl imageDigest keys2).1.1).1.1 ∧
  (VerifyAttestation att
     (NewVerifier pgpVerifierImpl imageDigest keys1).1.1).2 =
  (VerifyAttestation att
     (NewVerifier pgpVerifierImpl imageDigest keys2).1.1).2.
Proof.
  intros Hlast. rewrite !NewVerifier_fields.
  set (v1 := {| verifier_PublicKeys := (indexPublicKeysByID keys1).1 |}).
  set (v2 := {| verifier_PublicKeys := (indexPublicKeysByID keys2).1 |}).
  assert (verifier_PublicKeys v2 !! Attestation_PublicKeyID att =
          verifier_PublicKeys v1 !! Attestation_PublicKeyID att) as Hsame
    by (by cbn; rewrite !indexPublicKeysByID_lookup).
  destruct (verifier_PublicKeys v1 !! Attestation_PublicKeyID att)
    as [publicKey|] eqn:Hlookup.
  2: { by rewrite !VerifyAttestation_unknown. }
  destruct (selectedVerifier_cases v1 att publicKey)
    as [Hnot|[Hmiss|(payload & err & Hret)]].
  - by rewrite (VerifyAttestation_unrecognized v1 _ _ Hlookup Hnot),
      (VerifyAttestation_unrecognized v2 _ _ Hsame Hnot).
  - by rewrite (VerifyAttestation_missing v1 _ _ Hlookup Hmiss),
      (VerifyAttestation_missing v2 _ _ Hsame Hmiss).
  - rewrite (VerifyAttestation_returns v1 _ _ _ _ Hlookup Hret),
      (VerifyAttestation_returns v2 _ _ _ _ Hsame Hret).
    destruct err as [e|]; [done|]. by rewrite !afterVerification_run.
Qed.

(** X16.  On a verifier built by [NewVerifier], an attestation whose
    PublicKeyID resolves to a PKIX key gets the PKIX not-implemented error,
    for every signature, payload and expected digest; the PKIX stub is
    called once and neither the extractor nor the trust checker runs. *)
Theorem NewVerifier_pkix_not_implemented (imageDigest : string)
    (keys : list PublicKey) att publicKey :
  last (keysWithID (Attestation_PublicKeyID att) keys) = Some publicKey →
  PublicKey_KeyType publicKey = Pkix →
  (VerifyAttestation att
     (NewVerifier pgpVerifierImpl imageDigest keys).1.1).1.1 =
    Returned (Some NotImplementedPkix) ∧
  (VerifyAttestation att
     (NewVerifier pgpVerifierImpl imageDigest keys).1.1).2 =
    [call_verifyPkix (Attestation_Signature att)
       (Attestation_SerializedPayload att) (PublicKey_KeyData publicKey)].
Proof.
  intros Hlast Htype. rewrite NewVerifier_fields.
  erewrite VerifyAttestation_pkix;
    [|by cbn; rewrite indexPublicKeysByID_lookup|done|done].
  done.
Qed.

End EngineExtras.

(** ** The further properties on concrete inputs *)

Lemma registry_entries_sound_witness :
  (indexPublicKeysByID duplicateKeys).1 !! "k1" =
    Some (NewPublicKey Pgp [x04] "k1") ∧
  NewPublicKey Pgp [x04] "k1" ∈ duplicateKeys ∧
  PublicKey_ID (NewPublicKey Pgp [x04] "k1") = "k1".
Proof.
  split; [reflexivity|].
  apply (registry_entries_sound (KT:=intKeyTypes) duplicateKeys "k1"
           (NewPublicKey Pgp [x04] "k1")); reflexivity.
Defined.

Lemma registry_unique_ids_roundtrip_witness :
  NoDup (PublicKey_ID <$> uniqueKeys) ∧
  (∀ k, k ∈ uniqueKeys →
        (indexPublicKeysByID uniqueKeys).1 !! PublicKey_ID k = Some k) ∧
  (indexPublicKeysByID uniqueKeys).2 = [] ∧
  size (indexPublicKeysByID uniqueKeys).1 = length uniqueKeys.
Proof.
  assert (NoDup (PublicKey_ID <$> uniqueKeys)) as Hnodup
    by (apply (bool_decide_unpack _); vm_compute; exact I).
  split; [exact Hnodup|].
  exact (registry_unique_ids_roundtrip (KT:=intKeyTypes) uniqueKeys Hnodup).
Defined.

Lemma checker_gets_verifier_digest_witness :
  call_checkAuthenticatedAttestation
    {| authenticatedAttestation_ImageDigest := "" |} "sha256:abc"
    ∈ (VerifyAttestation (sampleAttestation "k1") scenarioA_verifier).2 ∧
  "sha256:abc" = verifier_ImageDigest scenarioA_verifier ∧
  authenticatedAttestation_ImageDigest
    {| authenticatedAttestation_ImageDigest := "" |} = "" ∧
  ∃ c, verifier_authenticatedAuthChecker scenarioA_verifier = Some c ∧
       (VerifyAttestation (sampleAttestation "k1") scenarioA_verifier).1.1 =
         Returned (checkAuthenticatedAttestation c
                     {| authenticatedAttestation_ImageDigest := "" |}
                     "sha256:abc").
Proof.
  assert (call_checkAuthenticatedAttestation
            {| authenticatedAttestation_ImageDigest := "" |} "sha256:abc"
            ∈ (VerifyAttestation (sampleAttestation "k1") scenarioA_verifier).2)
    as Hin by (do 2 apply list_elem_of_further; apply list_elem_of_here).
  split; [exact Hin|].
  exact (checker_gets_verifier_digest (KT:=intKeyTypes) scenarioA_verifier
           (sampleAttestation "k1") _ _ Hin).
Defined.

Lemma verifier_call_matches_key_witness :
  verifier_PublicKeys scenarioA_verifier
    !! Attestation_PublicKeyID (sampleAttestation "k1") =
    Some (sampleKey Pkix) ∧
  ∀ s k, call_verifyJwt s k
           ∈ (VerifyAttestation (sampleAttestation "k1") scenarioA_verifier).2 →
         PublicKey_KeyType (sampleKey Pkix) = Jwt ∧
         s = Attestation_Signature (sampleAttestation "k1") ∧
         k = PublicKey_KeyData (sampleKey Pkix).
Proof.
  split; [reflexivity|].
  apply (verifier_call_matches_key (KT:=intKeyTypes) scenarioA_verifier
           (sampleAttestation "k1") (sampleKey Pkix)); reflexivity.
Defined.

Lemma verifier_error_propagated_witness :
  verifier_PublicKeys rejectingJwtKeyVerifier
    !! Attestation_PublicKeyID (sampleAttestation "k1") = Some (sampleKey Jwt) ∧
  selectedVerifierReturns rejectingJwtKeyVerifier (sampleAttestation "k1")
    (sampleKey Jwt) [] (Some (errors_New "signature invalid")) ∧
  (VerifyAttestation (sampleAttestation "k1") rejectingJwtKeyVerifier).1.1 =
    Returned (Some (errors_New "signature invalid")) ∧
  ∀ e, e ∈ (VerifyAttestation (sampleAttestation "k1")
              rejectingJwtKeyVerifier).2 →
       ¬ afterVerificationEvent e.
Proof.
  assert (selectedVerifierReturns rejectingJwtKeyVerifier
            (sampleAttestation "k1") (sampleKey Jwt) []
            (Some (errors_New "signature invalid"))) as Hret.
  { right; right. split; [reflexivity|].
    exists rejectingJwtVerifier. split; reflexivity. }
  split; [reflexivity|]. split; [exact Hret|].
  exact (verifier_error_propagated (KT:=intKeyTypes) rejectingJwtKeyVerifier
           (sampleAttestation "k1") (sampleKey Jwt) []
           (errors_New "signature invalid") eq_refl Hret).
Defined.

Lemma payload_unread_outside_pkix_witness :
  verifier_PublicKeys emptyDigestVerifier
    !! Attestation_PublicKeyID (sampleAttestation "k1") = Some (sampleKey Pgp) ∧
  PublicKey_KeyType (sampleKey Pgp) ≠ Pkix ∧
  VerifyAttestation
    {| Attestation_PublicKeyID :=
         Attestation_PublicKeyID (sampleAttestation "k1");
       Attestation_Signature := Attestation_Signature (sampleAttestation "k1");
       Attestation_SerializedPayload := [x07] |} emptyDigestVerifier =
  VerifyAttestation (sampleAttestation "k1") emptyDigestVerifier.
Proof.
  assert (PublicKey_KeyType (sampleKey Pgp) ≠ Pkix) as Hne
    by (vm_compute; discriminate).
  split; [reflexivity|]. split; [exact Hne|].
  exact (payload_unread_outside_pkix (KT:=intKeyTypes) emptyDigestVerifier
           (sampleAttestation "k1") (sampleKey Pgp) [x07] eq_refl Hne).
Defined.

Lemma only_last_matching_key_matters_witness :
  last (keysWithID (Attestation_PublicKeyID (sampleAttestation "k1"))
          duplicateKeys) =
  last (keysWithID (Attestation_PublicKeyID (sampleAttestation "k1"))
          [NewPublicKey Pgp [x04] "k1"]) ∧
  (VerifyAttestation (sampleAttestation "k1")
     (NewVerifier samplePgpVerifier "" duplicateKeys).1.1).1.1 =
  (VerifyAttestation (sampleAttestation "k1")
     (NewVerifier samplePgpVerifier "" [NewPublicKey Pgp [x04] "k1"]).1.1).1.1 ∧
  (VerifyAttestation (sampleAttestation "k1")
     (NewVerifier samplePgpVerifier "" duplicateKeys).1.1).2 =
  (VerifyAttestation (sampleAttestation "k1")
     (NewVerifier samplePgpVerifier "" [NewPublicKey Pgp [x04] "k1"]).1.1).2.
Proof.
  split; [reflexivity|].
  exact (only_last_matching_key_matters (KT:=intKeyTypes) samplePgpVerifier ""
           duplicateKeys [NewPublicKey Pgp [x04] "k1"]
           (sampleAttestation "k1") eq_refl).
Defined.

Lemma NewVerifier_pkix_not_implemented_witness :
  last (keysWithID (Attestation_PublicKeyID (sampleAttestation "k1"))
          uniqueKeys) = Some (sampleKey Pkix) ∧
  PublicKey_KeyType (sampleKey Pkix) = Pkix ∧
  (VerifyAttestation (sampleAttestation "k1")
     (NewVerifier samplePgpVerifier "" uniqueKeys).1.1).1.1 =
    Returned (Some NotImplementedPkix) ∧
  (VerifyAttestation (sampleAttestation "k1")
     (NewVerifier samplePgpVerifier "" uniqueKeys).1.1).2 =
    [call_verifyPkix (Attestation_Signature (sampleAttestation "k1"))
       (Attestation_SerializedPayload (sampleAttestation "k1"))
       (PublicKey_KeyData (sampleKey Pkix))].
Proof.
  split; [reflexivity|]. split; [reflexivity|].
  exact (NewVerifier_pkix_not_implemented (KT:=intKeyTypes) samplePgpVerifier
           "" uniqueKeys (sampleAttestation "k1") (sampleKey Pkix)
           eq_refl eq_refl).
Defined.

(** A verifier built by [NewVerifier] with an empty expected digest accepts
    an attestation under a PGP key that the PGP backend accepts. *)
Example NewVerifier_accepts_pgp :
  (VerifyAttestation (sampleAttestation "k1")
     (NewVerifier samplePgpVerifier "" duplicateKeys).1.1).1.1 = Returned None.
Proof. reflexivity. Qed.

(** ** Properties of the model with mutable memory *)

Section MutableProperties.
Context {KT : KeyTypes} {P : Type}.

Implicit Types (v : @Mutable.verifier KT P) (att : Mutable.Attestation).
Implicit Types (m : @Mutable.memory KT P).

Lemma afterSwitch_readOnly v (payload : bytes) (err : error) m :
  Mutable.readOnly v → (Mutable.afterSwitch v payload err m).2 = m.
Proof.
  intros (_ & _ & _ & Hchecker). unfold Mutable.afterSwitch.
  destruct err as [e|]; [done|].
  destruct (Mutable.verifier_authenticatedAuthChecker v) as [c|] eqn:Hc;
    [|done].
  specialize (Hchecker c eq_refl (formAuthenticatedAttestation payload)
                (Mutable.memory_ImageDigest m) m).
  by destruct (Mutable.checkAuthenticatedAttestation c _ _ m).
Qed.

(** With implementations that change nothing, a run changes nothing:
    [VerifyAttestation] has no write of its own. *)
Lemma VerifyAttestation_readOnly v att m :
  Mutable.readOnly v → (Mutable.VerifyAttestation v att m).2 = m.
Proof.
  intros Hro. pose proof Hro as (Hpkix & Hpgp & Hjwt & _).
  unfold Mutable.VerifyAttestation.
  destruct (Mutable.memory_PublicKeys m !! _) as [publicKey|]; [|done].
  repeat case_decide; [| | |done].
  - destruct (Mutable.verifier_pkixVerifier v) as [i|] eqn:Hi; [|done].
    specialize (Hpkix i eq_refl (Mutable.Attestation_Signature att)
                  (Mutable.Attestation_SerializedPayload att)
                  (Mutable.PublicKey_KeyData publicKey) m).
    destruct (Mutable.verifyPkix i _ _ _ m) as [err m']. cbn in Hpkix.
    subst m'. by apply afterSwitch_readOnly.
  - destruct (Mutable.verifier_pgpVerifier v) as [i|] eqn:Hi; [|done].
    specialize (Hpgp i eq_refl (Mutable.Attestation_Signature att)
                  (Mutable.PublicKey_KeyData publicKey) m).
    destruct (Mutable.verifyPgp i _ _ m) as [[payload err] m']. cbn in Hpgp.
    subst m'. by apply afterSwitch_readOnly.
  - destruct (Mutable.verifier_jwtVerifier v) as [i|] eqn:Hi; [|done].
    specialize (Hjwt i eq_refl (Mutable.Attestation_Signature att)
                  (Mutable.PublicKey_KeyData publicKey) m).
    destruct (Mutable.verifyJwt i _ _ m) as [[payload err] m']. cbn in Hjwt.
    subst m'. by apply afterSwitch_readOnly.
Qed.

(** An implementation lifted from the first model changes nothing. *)
Lemma liftVerifier_readOnly (v0 : verifier) :
  Mutable.readOnly (liftVerifier (P:=P) v0).
Proof.
  unfold Mutable.readOnly, liftVerifier. cbn.
  split_and!; intros i Hi; apply fmap_Some in Hi as (i0 & _ & ->); done.
Qed.

(** On lifted implementations, a run in [Mutable] ends as the run of the
    first model on the bytes that the slices show, and leaves the memory as
    it was. *)
Lemma VerifyAttestation_lift (v0 : verifier) att m :
  verifier_ImageDigest v0 = Mutable.memory_ImageDigest m →
  verifier_PublicKeys v0 = keyIn m <$> Mutable.memory_PublicKeys m →
  Mutable.VerifyAttestation (liftVerifier v0) att m =
    ((VerifyAttestation (attestationIn m att) v0).1.1, m).
Proof.
  intros Hdigest Hkeys. unfold Mutable.VerifyAttestation. run_method.
  rewrite Hkeys, lookup_fmap. cbn.
  destruct (Mutable.memory_PublicKeys m !! _) as [publicKey|]; [|done].
  cbn. unfold Mutable.afterSwitch.
  repeat case_decide; cbn; [| | |done].
  - destruct (verifier_pkixVerifier v0) as [i|]; [|done]. cbn.
    destruct (verifyPkix i _ _ _); [done|]. cbn.
    destruct (verifier_authenticatedAuthChecker v0); [|done].
    cbn. by rewrite Hdigest.
  - destruct (verifier_pgpVerifier v0) as [i|]; [|done]. cbn.
    destruct (verifyPgp i _ _) as [payload [e|]]; [done|]. cbn.
    destruct (verifier_authenticatedAuthChecker v0); [|done].
    cbn. by rewrite Hdigest.
  - destruct (verifier_jwtVerifier v0) as [i|]; [|done]. cbn.
    destruct (verifyJwt i _ _) as [payload [e|]]; [done|]. cbn.
    destruct (verifier_authenticatedAuthChecker v0); [|done].
    cbn. by rewrite Hdigest.
Qed.

(** C8, as amended.  When no implementation behind the verifier's
    interfaces keeps state or writes to memory, a run of [VerifyAttestation]
    leaves the memory as it was (the expected digest, the PublicKeys map
    and the bytes of every slice), and a second run on the same attestation
    returns what the first returned. *)
Theorem verify_twice_read_only v att m :
  Mutable.readOnly v →
  (Mutable.VerifyAttestation v att
     (Mutable.VerifyAttestation v att m).2).1 =
    (Mutable.VerifyAttestation v att m).1 ∧
  (Mutable.VerifyAttestation v att m).2 = m ∧
  Mutable.memory_ImageDigest (Mutable.VerifyAttestation v att m).2 =
    Mutable.memory_ImageDigest m ∧
  Mutable.memory_PublicKeys (Mutable.VerifyAttestation v att m).2 =
    Mutable.memory_PublicKeys m ∧
  ∀ s, Mutable.bytesOf (Mutable.VerifyAttestation v att m).2 s =
       Mutable.bytesOf m s.
Proof.
  intros Hro. by rewrite !(VerifyAttestation_readOnly _ _ _ Hro).
Qed.

End MutableProperties.

(** C8, the claim as stated fails.  The PGP backend of [wipingVerifier]
    wipes the key bytes it is handed, which are the bytes of the entry of
    the PublicKeys map.  The first run accepts the attestation, the second
    run, on the same attestation, returns an error, and the key of the map
    no longer shows the bytes it showed. *)
Lemma verify_twice_differs :
  (Mutable.VerifyAttestation Mutable.wipingVerifier Mutable.sampleAttestation
     (Mutable.sampleMemory Pgp)).1 = Returned None ∧
  (Mutable.VerifyAttestation Mutable.wipingVerifier Mutable.sampleAttestation
     (Mutable.VerifyAttestation Mutable.wipingVerifier
        Mutable.sampleAttestation (Mutable.sampleMemory Pgp)).2).1 =
    Returned (Some (errors_New "signature invalid")) ∧
  Mutable.bytesOf (Mutable.sampleMemory Pgp) Mutable.sampleKeyData =
    [x01; x02] ∧
  Mutable.bytesOf
    (Mutable.VerifyAttestation Mutable.wipingVerifier
       Mutable.sampleAttestation (Mutable.sampleMemory Pgp)).2
    Mutable.sampleKeyData = [x00; x00].
Proof. split_and!; vm_compute; reflexivity. Qed.

Lemma stubVerifier_readOnly : Mutable.readOnly Mutable.stubVerifier.
Proof.
  unfold Mutable.readOnly, Mutable.stubVerifier. cbn.
  split_and!; intros i Hi; simplify_eq; done.
Qed.

Lemma verify_twice_read_only_witness :
  Mutable.readOnly Mutable.stubVerifier ∧
  (Mutable.VerifyAttestation Mutable.stubVerifier Mutable.sampleAttestation
     (Mutable.VerifyAttestation Mutable.stubVerifier
        Mutable.sampleAttestation (Mutable.sampleMemory Jwt)).2).1 =
    (Mutable.VerifyAttestation Mutable.stubVerifier
       Mutable.sampleAttestation (Mutable.sampleMemory Jwt)).1 ∧
  (Mutable.VerifyAttestation Mutable.stubVerifier Mutable.sampleAttestation
     (Mutable.sampleMemory Jwt)).2 = Mutable.sampleMemory Jwt.
Proof.
  split; [exact stubVerifier_readOnly|].
  pose proof (verify_twice_read_only (KT:=intKeyTypes) Mutable.stubVerifier
                Mutable.sampleAttestation (Mutable.sampleMemory Jwt)
                stubVerifier_readOnly) as (Hsame & Hmem & _).
  exact (conj Hsame Hmem).
Defined.

Lemma nil_dereference_panics_witness :
  (Some scenarioA_verifier = None ∨ @None Attestation = None ∨
   (∃ v0 att0 publicKey,
      Some scenarioA_verifier = Some v0 ∧ @None Attestation = Some att0 ∧
      verifier_PublicKeys v0 !! Attestation_PublicKeyID att0 = Some publicKey ∧
      (selectedVerifierMissing v0 publicKey ∨
       (verifier_authenticatedAuthChecker v0 = None ∧
        ∃ payload, selectedVerifierReturns v0 att0 publicKey payload None)))) ∧
  (VerifyAttestation_ptr (Some scenarioA_verifier) None).1 = Panicked.
Proof.
  assert (Some scenarioA_verifier = None ∨ @None Attestation = None ∨
   (∃ v0 att0 publicKey,
      Some scenarioA_verifier = Some v0 ∧ @None Attestation = Some att0 ∧
      verifier_PublicKeys v0 !! Attestation_PublicKeyID att0 = Some publicKey ∧
      (selectedVerifierMissing v0 publicKey ∨
       (verifier_authenticatedAuthChecker v0 = None ∧
        ∃ payload, selectedVerifierReturns v0 att0 publicKey payload None))))
    as Hnil by (right; left; reflexivity).
  split; [exact Hnil|].
  exact (nil_dereference_panics (KT:=intKeyTypes) (Some scenarioA_verifier)
           None Hnil).
Defined.

Lemma NewVerifier_rejects_outside_pgp_witness :
  (∀ publicKey,
     last (keysWithID (Attestation_PublicKeyID (sampleAttestation "k1"))
             uniqueKeys) = Some publicKey →
     PublicKey_KeyType publicKey ≠ Pgp) ∧
  (∃ err : errorValue,
     (VerifyAttestation_ptr
        (Some (NewVerifier samplePgpVerifier "" uniqueKeys).1.1)
        (Some (sampleAttestation "k1"))).1 = Returned (Some err)) ∧
  (VerifyAttestation_ptr
     (Some (NewVerifier samplePgpVerifier "" uniqueKeys).1.1) None).1 =
    Panicked.
Proof.
  assert (∀ publicKey,
     last (keysWithID (Attestation_PublicKeyID (sampleAttestation "k1"))
             uniqueKeys) = Some publicKey →
     PublicKey_KeyType publicKey ≠ Pgp) as Hpgp.
  { intros publicKey Hlast. vm_compute in Hlast.
    injection Hlast as <-. vm_compute. discriminate. }
  split; [exact Hpgp|].
  pose proof (NewVerifier_rejects_outside_pgp (KT:=intKeyTypes)
                samplePgpVerifier "" uniqueKeys (sampleAttestation "k1") Hpgp)
    as (Herr & _ & Hpanic).
  exact (conj Herr Hpanic).
Defined.
